(** * mofa.utils.xyz : conversions between XYZ geometries and SMILES strings

    A shallow embedding of [src/mofa/utils/xyz.py].

    The module is glue over two third-party libraries (RDKit and NumPy) and
    over the constants of [mofa.utils.src.const].  The embedding keeps that
    shape:

    - molecules are Python objects: they live in a store, variables hold
      references, and a toolkit call either mutates the object it is given
      or allocates a new one;
    - every toolkit entry point is a field of the class [Toolkit]: what it
      computes is left open, whether it works in place or returns a new
      object is fixed by the wrappers of the modules [Chem],
      [rdDetermineBonds] and [AllChem];
    - the tables [BONDS_2], [BONDS_3] and [MARGINS_EDM] are the fields of the
      class [Const];
    - coordinates and distances are IEEE 754 binary64 numbers (Rocq's
      primitive floats), as NumPy's [float64] is; [np.linalg.norm], whose
      rounding depends on the BLAS NumPy is built on, is a field of
      [Toolkit] as well. *)

From Stdlib Require Import PrimFloat ZArith.
From Corelib Require SpecFloat FloatOps FloatAxioms.
From stdpp Require Import gmap strings list.

Local Open Scope Z_scope.
Local Open Scope string_scope.
Local Open Scope list_scope.

(** ** Numbers *)

Module Float64.

(** A Python [int] compared with (or multiplied by) a [float64] is first
    converted to [float64].  The conversion below is exact for
    [|z| <= 2^53], which covers bond lengths in picometers; it is the
    range in which the comparison below is the one Python makes.  (Past
    it Python still rounds correctly, and past the largest [float64] it
    raises [OverflowError]; neither is represented here.) *)
Fixpoint of_pos (p : positive) : float :=
  match p with
  | xH => 1%float
  | xO q => (2 * of_pos q)%float
  | xI q => (2 * of_pos q + 1)%float
  end.

Definition of_Z (z : Z) : float :=
  match z with
  | Z0 => 0%float
  | Zpos p => of_pos p
  | Zneg p => (- of_pos p)%float
  end.

(** [x < n] for a float [x] and a Python integer [n]. *)
Definition lt_int (x : float) (n : Z) : bool := PrimFloat.ltb x (of_Z n).

(** The integers that [of_Z] converts exactly. *)
Definition exact (n : Z) : Prop := Z.abs n <= 2 ^ 53.

(** [fma x y z]: [x * y + z] with a single rounding, to nearest even
    (IEEE 754 fusedMultiplyAdd).  The product of two finite numbers is
    formed exactly and rounded only after the addition. *)
Definition fma (x y z : float) : float :=
  let prec := FloatOps.prec in
  let emax := FloatOps.emax in
  FloatOps.SF2Prim
    match FloatOps.Prim2SF x, FloatOps.Prim2SF y with
    | SpecFloat.S754_finite sx mx ex, SpecFloat.S754_finite sy my ey =>
        match FloatOps.Prim2SF z with
        | SpecFloat.S754_zero _ =>
            SpecFloat.binary_normalize prec emax
              (SpecFloat.cond_Zopp (xorb sx sy) (Zpos (mx * my)))
              (ex + ey) false
        | fz =>
            SpecFloat.SFadd prec emax
              (SpecFloat.S754_finite (xorb sx sy) (mx * my) (ex + ey)) fz
        end
    | fx, fy =>
        SpecFloat.SFadd prec emax (SpecFloat.SFmul prec emax fx fy)
          (FloatOps.Prim2SF z)
    end.

End Float64.

(** ** Exceptions and results *)

Inductive exn : Type :=
| ArgumentError      (* a toolkit function was handed [None] *)
| AttributeError     (* a method was called on [None] *)
| IndexError         (* list or array index out of range *)
| ValueError         (* e.g. no conformer with the requested id *)
| DanglingReference  (* a reference to an object that was never allocated *)
| ToolkitError (what : string).  (* anything the toolkit itself raises *)

Inductive Res (A : Type) : Type :=
| Ok (a : A)
| Raise (e : exn).
Arguments Ok {A} a.
Arguments Raise {A} e.

Definition res_bind {A B} (r : Res A) (k : A -> Res B) : Res B :=
  match r with
  | Ok a => k a
  | Raise e => Raise e
  end.

(** The computation returned normally. *)
Definition is_Ok {A} (r : Res A) : Prop :=
  match r with
  | Ok _ => True
  | Raise _ => False
  end.

(** Python's [xs[i]] on a list. *)
Definition getitem {A} (xs : list A) (i : nat) : Res A :=
  match xs !! i with
  | Some x => Ok x
  | None => Raise IndexError
  end.

(** ** The molecule data model

    Only what [xyz.py] reads or writes is represented. *)

Inductive BondType : Type :=
| UNSPECIFIED | SINGLE | DOUBLE | TRIPLE | QUADRUPLE | QUINTUPLE | HEXTUPLE
| ONEANDAHALF | TWOANDAHALF | THREEANDAHALF | FOURANDAHALF | FIVEANDAHALF
| AROMATIC | IONIC | HYDROGEN | THREECENTER
| DATIVEONE | DATIVE | DATIVEL | DATIVER | OTHER | ZERO.

#[global] Instance BondType_eq_dec : EqDecision BondType.
Proof. solve_decision. Defined.

Record Point3D : Type := mkPoint { px : float; py : float; pz : float }.

Record Atom : Type := mkAtom {
  GetSymbol : string;
  GetNumExplicitHs : nat
}.

Record Bond : Type := mkBond {
  GetBeginAtomIdx : nat;
  GetEndAtomIdx : nat;
  GetBondType : BondType
}.

(** A conformer is its array of positions, one row per atom. *)
Abbreviation Conformer := (list Point3D) (only parsing).

(** What [UpdatePropertyCache] computes: the valence of every atom. *)
Abbreviation PropertyCache := (list nat) (only parsing).

Record Mol : Type := mkMol {
  GetAtoms : list Atom;
  GetBonds : list Bond;
  GetConformers : list Conformer;
  property_cache : option PropertyCache
}.

Definition SetBondType (bond_type : BondType) (b : Bond) : Bond :=
  {| GetBeginAtomIdx := GetBeginAtomIdx b;
     GetEndAtomIdx := GetEndAtomIdx b;
     GetBondType := bond_type |}.

Definition with_bonds (m : Mol) (bs : list Bond) : Mol :=
  {| GetAtoms := GetAtoms m;
     GetBonds := bs;
     GetConformers := GetConformers m;
     property_cache := property_cache m |}.

Definition with_property_cache (m : Mol) (c : PropertyCache) : Mol :=
  {| GetAtoms := GetAtoms m;
     GetBonds := GetBonds m;
     GetConformers := GetConformers m;
     property_cache := Some c |}.

(** ** NumPy: rows of the position array

    The difference of two rows is taken coordinate by coordinate, each
    with one rounding.  [np.linalg.norm] of a real vector is the square
    root of [x.dot(x)]; how the three products are summed, and rounded, is
    up to the BLAS behind NumPy, so the norm itself is a field of
    [Toolkit] below.  [fused_norm] is the norm of a BLAS that accumulates
    the sum with fused multiply-adds. *)

Module np.

(** [a - b] on two rows of length three. *)
Definition sub (a b : Point3D) : Point3D :=
  {| px := (px a - px b)%float;
     py := (py a - py b)%float;
     pz := (pz a - pz b)%float |}.

Definition fused_norm (x : Point3D) : float :=
  PrimFloat.sqrt
    (Float64.fma (pz x) (pz x)
       (Float64.fma (py x) (py x) (px x * px x)%float)).

End np.

(** ** The constants of [mofa.utils.src.const]

    [xyz.py] only reads them, so they are parameters here: two tables of
    reference bond lengths in picometers, keyed by the element symbol of
    the first and then of the second atom, and the list of margins. *)

Class Const : Type := mkConst {
  BONDS_2 : gmap string (gmap string Z);
  BONDS_3 : gmap string (gmap string Z);
  MARGINS_EDM : list Z
}.

(** [table[type_1][type_2]], guarded by
    [type_1 in table and type_2 in table[type_1]]. *)
Definition entry (table : gmap string (gmap string Z)) (type_1 type_2 : string)
  : option Z :=
  match table !! type_1 with
  | Some row => row !! type_2
  | None => None
  end.

(** ** The bond-order classifier (lines 85 to 98 of [xyz.py]) *)

Section Classifier.
Context `{Const}.

Definition infer_bond_type (type_1 type_2 : string) (distance : float)
  : Res BondType :=
  let margins := MARGINS_EDM in
  match entry BONDS_2 type_1 type_2 with
  | Some b2 =>
      res_bind (getitem margins 1) (fun m1 =>
      let thr_bond2 := b2 + m1 in
      if Float64.lt_int distance thr_bond2 then
        match entry BONDS_3 type_1 type_2 with
        | Some b3 =>
            res_bind (getitem margins 2) (fun m2 =>
            let thr_bond3 := b3 + m2 in
            if Float64.lt_int distance thr_bond3 then Ok TRIPLE
            else Ok DOUBLE)
        | None => Ok DOUBLE
        end
      else Ok SINGLE)
  | None => Ok SINGLE
  end.

(** The classifier as the specification words it: a flat chain that tests
    the triple threshold first. *)
Definition infer_bond_type_spec (b2 m1 b3 m2 : Z) (distance : float)
  : BondType :=
  if Float64.lt_int distance (b3 + m2) then TRIPLE
  else if Float64.lt_int distance (b2 + m1) then DOUBLE
  else SINGLE.

(** Triple bonds are the shorter ones: wherever a pair of elements has a
    length in both tables, the triple-bond length with its margin is not
    above the double-bond length with its margin, compared as the
    binary64 numbers the distance is compared with. *)
Definition triple_not_above_double : Prop :=
  forall (type_1 type_2 : string) (b2 b3 m1 m2 : Z),
    entry BONDS_2 type_1 type_2 = Some b2 ->
    entry BONDS_3 type_1 type_2 = Some b3 ->
    MARGINS_EDM !! 1%nat = Some m1 ->
    MARGINS_EDM !! 2%nat = Some m2 ->
    Float64.lt_int (Float64.of_Z (b3 + m2)) (b2 + m1) = true \/
      b3 + m2 = b2 + m1.

End Classifier.

(** ** Objects, the store and the effects of a call

    A molecule variable of the Python code holds [None] or a reference to a
    molecule object.  The store maps references to the current contents of
    the objects.  Besides the store, the state records the toolkit calls made
    so far (and the entries into and exits from the module's lock), and the
    unseeded random source that the toolkit falls back on when it is given
    no seed. *)

Abbreviation loc := nat (only parsing).

Inductive fn : Type :=
| fn_MolFromXYZBlock | fn_DetermineConnectivity | fn_DetermineBondOrders
| fn_MolToSmiles | fn_MolFromSmiles | fn_AddHs | fn_EmbedMolecule
| fn_MMFFOptimizeMolecule | fn_MolToXYZBlock | fn_UpdatePropertyCache.

Inductive Event : Type :=
| LockAcquire
| LockRelease
| Called (f : fn).

#[global] Instance fn_eq_dec : EqDecision fn.
Proof. solve_decision. Defined.

#[global] Instance Event_eq_dec : EqDecision Event.
Proof. solve_decision. Defined.

Record State : Type := mkState {
  heap : list Mol;
  trace : list Event;
  entropy : Z
}.

Definition M (A : Type) : Type := State -> Res A * State.

Definition ret {A} (a : A) : M A := fun s => (Ok a, s).

Definition bind {A B} (m : M A) (k : A -> M B) : M B :=
  fun s =>
    match m s with
    | (Ok a, s') => k a s'
    | (Raise e, s') => (Raise e, s')
    end.

Definition raise {A} (e : exn) : M A := fun s => (Raise e, s).

Definition lift {A} (r : Res A) : M A := fun s => (r, s).

Declare Scope monad_scope.
Delimit Scope monad_scope with monad.
Notation "'do' x <- m ; k" := (bind m (fun x => k))
  (at level 10, x name, m at level 100, k at level 200) : monad_scope.
Local Open Scope monad_scope.

Definition record (e : Event) (s : State) : State :=
  {| heap := heap s; trace := trace s ++ [e]; entropy := entropy s |}.

Definition emit (e : Event) : M unit := fun s => (Ok tt, record e s).

(** A new object gets the next free address. *)
Definition push (m : Mol) (s : State) : State :=
  {| heap := heap s ++ [m]; trace := trace s; entropy := entropy s |}.

Definition alloc (m : Mol) : M loc :=
  fun s => (Ok (length (heap s)), push m s).

Definition deref (l : loc) : M Mol :=
  fun s =>
    match heap s !! l with
    | Some m => (Ok m, s)
    | None => (Raise DanglingReference, s)
    end.

(** In-place update of the object at [l]. *)
Definition put (l : loc) (m : Mol) (s : State) : State :=
  {| heap := <[l := m]> (heap s); trace := trace s; entropy := entropy s |}.

Definition store (l : loc) (m : Mol) : M unit :=
  fun s => (Ok tt, put l m s).

(** The value the toolkit seeds its generator with when it is given none. *)
Definition draw_entropy : M Z :=
  fun s => (Ok (entropy s),
            {| heap := heap s; trace := trace s; entropy := entropy s + 1 |}).

(** A molecule handed to a toolkit function, and the receiver of a method
    call: [None] is rejected with the exception Python raises there. *)
Definition arg (mol : option loc) : M loc :=
  match mol with
  | Some l => ret l
  | None => raise ArgumentError
  end.

Definition self (mol : option loc) : M loc :=
  match mol with
  | Some l => ret l
  | None => raise AttributeError
  end.

(** [with lock: body]: the lock is released however the body ends. *)
Definition with_lock {A} (body : M A) : M A :=
  fun s =>
    match body (record LockAcquire s) with
    | (r, s') => (r, record LockRelease s')
    end.

(** [for x in xs: body(x)] *)
Fixpoint for_each {A} (xs : list A) (body : A -> M unit) : M unit :=
  match xs with
  | [] => ret tt
  | x :: rest => do _ <- body x ; for_each rest body
  end.

(** ** The toolkit

    What each RDKit entry point computes from the contents of a molecule,
    and what NumPy's norm computes.  A parser returns [None] for text it
    cannot read. *)

Class Toolkit : Type := mkToolkit {
  rdkit_MolFromXYZBlock : string -> Res (option Mol);
  rdkit_MolFromSmiles : string -> Res (option Mol);
  rdkit_DetermineConnectivity : Mol -> Res Mol;
  rdkit_DetermineBondOrders : Mol -> Res Mol;
  rdkit_MolToSmiles : Mol -> Res string;
  rdkit_MolToXYZBlock : Mol -> Res string;
  (* [explicitOnly], [addCoords], the molecule *)
  rdkit_AddHs : bool -> bool -> Mol -> Res Mol;
  (* the seed of the generator, the molecule; the new contents and the
     conformer id (-1 on failure) *)
  rdkit_EmbedMolecule : Z -> Mol -> Res (Mol * Z);
  (* the new contents and the convergence flag *)
  rdkit_MMFFOptimizeMolecule : Mol -> Res (Mol * Z);
  rdkit_UpdatePropertyCache : Mol -> Res PropertyCache;
  (* [np.linalg.norm] of a row of three coordinates *)
  numpy_linalg_norm : Point3D -> float
}.

Module Chem.
Section Chem.
Context `{Toolkit}.

Definition new_object (r : option Mol) : M (option loc) :=
  match r with
  | Some m => do l <- alloc m ; ret (Some l)
  | None => ret None
  end.

Definition MolFromXYZBlock (xyz : string) : M (option loc) :=
  do _ <- emit (Called fn_MolFromXYZBlock) ;
  do r <- lift (rdkit_MolFromXYZBlock xyz) ;
  new_object r.

Definition MolFromSmiles (smiles : string) : M (option loc) :=
  do _ <- emit (Called fn_MolFromSmiles) ;
  do r <- lift (rdkit_MolFromSmiles smiles) ;
  new_object r.

Definition MolToSmiles (mol : option loc) : M string :=
  do _ <- emit (Called fn_MolToSmiles) ;
  do l <- arg mol ;
  do m <- deref l ;
  lift (rdkit_MolToSmiles m).

Definition MolToXYZBlock (mol : option loc) : M string :=
  do _ <- emit (Called fn_MolToXYZBlock) ;
  do l <- arg mol ;
  do m <- deref l ;
  lift (rdkit_MolToXYZBlock m).

(** [AddHs] leaves its argument as it is and returns a new molecule. *)
Definition AddHs (mol : option loc) (explicitOnly addCoords : bool)
  : M (option loc) :=
  do _ <- emit (Called fn_AddHs) ;
  do l <- arg mol ;
  do m <- deref l ;
  do m' <- lift (rdkit_AddHs explicitOnly addCoords m) ;
  do l' <- alloc m' ;
  ret (Some l').

(** [mol.UpdatePropertyCache()] fills the cache of [mol] itself. *)
Definition UpdatePropertyCache (mol : option loc) : M unit :=
  do l <- self mol ;
  do _ <- emit (Called fn_UpdatePropertyCache) ;
  do m <- deref l ;
  do c <- lift (rdkit_UpdatePropertyCache m) ;
  store l (with_property_cache m c).

(** [mol.GetConformer(id)] *)
Definition GetConformer (mol : option loc) (id : nat) : M Conformer :=
  do l <- self mol ;
  do m <- deref l ;
  match GetConformers m !! id with
  | Some c => ret c
  | None => raise ValueError
  end.

(** [conformer.GetPositions()]: a copy of the coordinates. *)
Definition GetPositions (conformer : Conformer) : list Point3D := conformer.

(** [mol.GetBonds()]: the bonds of [mol], here by their indices. *)
Definition GetBonds (mol : option loc) : M (list nat) :=
  do l <- self mol ;
  do m <- deref l ;
  ret (seq 0 (length (GetBonds m))).

End Chem.
End Chem.

Module rdDetermineBonds.
Section rdDetermineBonds.
Context `{Toolkit}.

Definition DetermineConnectivity (mol : option loc) : M unit :=
  do _ <- emit (Called fn_DetermineConnectivity) ;
  do l <- arg mol ;
  do m <- deref l ;
  do m' <- lift (rdkit_DetermineConnectivity m) ;
  store l m'.

Definition DetermineBondOrders (mol : option loc) : M unit :=
  do _ <- emit (Called fn_DetermineBondOrders) ;
  do l <- arg mol ;
  do m <- deref l ;
  do m' <- lift (rdkit_DetermineBondOrders m) ;
  store l m'.

End rdDetermineBonds.
End rdDetermineBonds.

Module AllChem.
Section AllChem.
Context `{Toolkit}.

(** With [randomSeed = -1] the generator is not seeded; any other value
    seeds it. *)
Definition EmbedMolecule (mol : option loc) (randomSeed : Z) : M Z :=
  do _ <- emit (Called fn_EmbedMolecule) ;
  do l <- arg mol ;
  do m <- deref l ;
  do seed <- (if Z.eqb randomSeed (-1) then draw_entropy
           else ret randomSeed) ;
  do r <- lift (rdkit_EmbedMolecule seed m) ;
  do _ <- store l (fst r) ;
  ret (snd r).

Definition MMFFOptimizeMolecule (mol : option loc) : M Z :=
  do _ <- emit (Called fn_MMFFOptimizeMolecule) ;
  do l <- arg mol ;
  do m <- deref l ;
  do r <- lift (rdkit_MMFFOptimizeMolecule m) ;
  do _ <- store l (fst r) ;
  ret (snd r).

End AllChem.
End AllChem.

(** ** The functions of [xyz.py] *)

Section Xyz.
Context `{Const} `{Toolkit}.

Definition xyz_to_mol (xyz : string) : M (option loc) :=
  do mol <- Chem.MolFromXYZBlock xyz ;
  do _ <- rdDetermineBonds.DetermineConnectivity mol ;
  do _ <- rdDetermineBonds.DetermineBondOrders mol ;
  ret mol.

Definition xyz_to_smiles (xyz : string) : M string :=
  do mol <- xyz_to_mol xyz ;
  Chem.MolToSmiles mol.

Definition smiles_to_xyz (smiles : string) : M string :=
  with_lock (
    do mol <- Chem.MolFromSmiles smiles ;
    do mol <- Chem.AddHs mol false false ;
    do _ <- AllChem.EmbedMolecule mol 1 ;
    do _ <- AllChem.MMFFOptimizeMolecule mol ;
    do xyz <- Chem.MolToXYZBlock mol ;
    ret xyz).

(** The distance, in picometers, between the two atoms of a bond. *)
Definition bond_distance (p1 p2 : Point3D) : float :=
  (numpy_linalg_norm (np.sub p1 p2) * Float64.of_Z 100)%float.

(** One turn of the loop over the bonds (lines 76 to 99): [k] is the
    position of [bond] among the bonds of [mol]. *)
Definition correct_bond (mol : loc) (positions : list Point3D) (k : nat)
  : M unit :=
  do m <- deref mol ;
  do bond <- lift (getitem (GetBonds m) k) ;
  do atom_1 <- lift (getitem (GetAtoms m) (GetBeginAtomIdx bond)) ;
  do atom_2 <- lift (getitem (GetAtoms m) (GetEndAtomIdx bond)) ;
  do p1 <- lift (getitem positions (GetBeginAtomIdx bond)) ;
  do p2 <- lift (getitem positions (GetEndAtomIdx bond)) ;
  let distance := bond_distance p1 p2 in
  let type_1 := GetSymbol atom_1 in
  let type_2 := GetSymbol atom_2 in
  do bond_type <- lift (infer_bond_type type_1 type_2 distance) ;
  store mol (with_bonds m (<[k := SetBondType bond_type bond]> (GetBonds m))).

Definition unsaturated_xyz_to_mol (xyz : string) : M (option loc) :=
  do mol <- Chem.MolFromXYZBlock xyz ;
  do _ <- rdDetermineBonds.DetermineConnectivity mol ;
  do conformer <- Chem.GetConformer mol 0 ;
  let positions := Chem.GetPositions conformer in
  do this <- self mol ;
  do bonds <- Chem.GetBonds mol ;
  do _ <- for_each bonds (correct_bond this positions) ;
  do _ <- Chem.UpdatePropertyCache mol ;
  do _ <- Chem.AddHs mol true true ;
  ret mol.

(** *** The loop over the bonds as a function

    What one turn of the loop computes for [bond], and what the whole loop
    makes of a list of bonds: the first exception ends it. *)

Definition classify_bond (atoms : list Atom) (positions : list Point3D)
    (bond : Bond) : Res BondType :=
  res_bind (getitem atoms (GetBeginAtomIdx bond)) (fun atom_1 =>
  res_bind (getitem atoms (GetEndAtomIdx bond)) (fun atom_2 =>
  res_bind (getitem positions (GetBeginAtomIdx bond)) (fun p1 =>
  res_bind (getitem positions (GetEndAtomIdx bond)) (fun p2 =>
  infer_bond_type (GetSymbol atom_1) (GetSymbol atom_2)
    (bond_distance p1 p2))))).

Fixpoint retype (atoms : list Atom) (positions : list Point3D)
    (bonds : list Bond) : Res (list Bond) :=
  match bonds with
  | [] => Ok []
  | bond :: rest =>
      res_bind (classify_bond atoms positions bond) (fun bond_type =>
      res_bind (retype atoms positions rest) (fun rest' =>
      Ok (SetBondType bond_type bond :: rest')))
  end.

End Xyz.

(** The events a computation adds to the trace when run from [s]. *)
Definition events_of {A} (m : M A) (s : State) : list Event :=
  drop (length (trace s)) (trace (snd (m s))).

(** The toolkit calls of the body of [smiles_to_xyz], in program order. *)
Definition smiles_to_xyz_calls : list fn :=
  [fn_MolFromSmiles; fn_AddHs; fn_EmbedMolecule; fn_MMFFOptimizeMolecule;
   fn_MolToXYZBlock].

(** ** Concurrent invocations and [_generate_lock]

    Several invocations of [smiles_to_xyz] run in the threads of one
    process.  Each is represented by the events it has still to perform; the
    first of them is the one in progress: a toolkit call that is running, or
    a [LockAcquire] the invocation is waiting at.  [_generate_lock] is a
    plain [threading.Lock]: one bit, shared by all invocations. *)

Module Threads.

Record Config : Type := mkConfig {
  _generate_lock : bool;            (* is the lock held? *)
  pending : list (list Event)
}.

(** The scheduler lets invocation [t] finish the event it is at.  An
    invocation waiting for a held lock stays where it is.  (A release
    always finds the lock held by the releasing invocation itself, see
    [invariant] below.) *)
Definition advance (t : nat) (cfg : Config) : Config :=
  match pending cfg !! t with
  | Some (LockAcquire :: rest) =>
      if _generate_lock cfg then cfg
      else {| _generate_lock := true;
              pending := <[t := rest]> (pending cfg) |}
  | Some (LockRelease :: rest) =>
      {| _generate_lock := false;
         pending := <[t := rest]> (pending cfg) |}
  | Some (Called f :: rest) =>
      {| _generate_lock := _generate_lock cfg;
         pending := <[t := rest]> (pending cfg) |}
  | Some [] | None => cfg
  end.

Definition run (schedule : list nat) (cfg : Config) : Config :=
  fold_left (fun c t => advance t c) schedule cfg.

Definition initial (scripts : list (list Event)) : Config :=
  {| _generate_lock := false; pending := scripts |}.

(** An invocation is executing the toolkit call [f]. *)
Definition running (f : fn) (script : list Event) : bool :=
  match script with
  | Called g :: _ => bool_decide (f = g)
  | _ => false
  end.

(** An invocation is inside the [with] block: it has passed
    [LockAcquire] and not yet [LockRelease]. *)
Definition inside (script : list Event) : bool :=
  match script with
  | Called _ :: _ | LockRelease :: _ => true
  | _ => false
  end.

Definition count (p : list Event -> bool) (cfg : Config) : nat :=
  length (filter (fun sc => p sc = true) (pending cfg)).

(** The shapes a script goes through: still to take the lock, inside the
    [with] block, finished. *)
Definition in_body (script : list Event) : Prop :=
  exists calls : list fn, script = (Called <$> calls) ++ [LockRelease].

Definition well_formed (script : list Event) : Prop :=
  script = [] \/ in_body script \/
  exists rest, script = LockAcquire :: rest /\ in_body rest.

(** The invariant: every script has one of the three shapes, and the lock
    is held exactly when one invocation is inside the block. *)
Definition invariant (cfg : Config) : Prop :=
  Forall well_formed (pending cfg) /\
  count inside cfg = if _generate_lock cfg then 1%nat else 0%nat.

End Threads.

(** ** Sample data

    Tables and a toolkit small enough to run the functions on.  The tables
    hold a few bond lengths in picometers; the toolkit reads a few fixed
    inputs, bonds atoms closer than 200 pm and writes a molecule as the
    sequence of its element symbols.  They stand in for the constants and
    for RDKit in the examples and take no part in the general theorems. *)

Module Sample.

Definition tables : Const :=
  {| BONDS_2 := {[ "C" := {[ "C" := 134; "N" := 129; "O" := 120 ]};
                   "N" := {[ "C" := 129; "N" := 125; "O" := 121 ]};
                   "O" := {[ "C" := 120; "N" := 121; "O" := 121 ]} ]};
     BONDS_3 := {[ "C" := {[ "C" := 120; "N" := 116; "O" := 113 ]};
                   "N" := {[ "C" := 116; "N" := 110 ]};
                   "O" := {[ "C" := 113 ]};
                   "P" := {[ "P" := 180 ]} ]};
     MARGINS_EDM := [10; 5; 2] |}.

Definition point (x y z : float) : Point3D := {| px := x; py := y; pz := z |}.

(** The heavy atoms of propynal, on a line: C#C at 1.1875, C-C at 1.5 and
    C=O at 1.21875 angstrom. *)
Definition propynal_xyz : string :=
  "4

C 0.0 0.0 0.0
C 1.1875 0.0 0.0
C 2.6875 0.0 0.0
O 3.90625 0.0 0.0
".

(** Atoms read from an XYZ block record no explicit hydrogens. *)
Definition propynal_atoms : list Atom :=
  [ {| GetSymbol := "C"; GetNumExplicitHs := 0 |};
    {| GetSymbol := "C"; GetNumExplicitHs := 0 |};
    {| GetSymbol := "C"; GetNumExplicitHs := 0 |};
    {| GetSymbol := "O"; GetNumExplicitHs := 0 |} ].

Definition propynal_positions : Conformer :=
  [ point 0 0 0; point 1.1875 0 0; point 2.6875 0 0;
    point 3.90625 0 0 ]%float.

Definition propynal_parsed : Mol :=
  {| GetAtoms := propynal_atoms; GetBonds := [];
     GetConformers := [propynal_positions]; property_cache := None |}.

(** Two phosphorus atoms, 1.75 angstrom apart. *)
Definition diphosphorus_xyz : string :=
  "2

P 0.0 0.0 0.0
P 1.75 0.0 0.0
".

Definition diphosphorus_parsed : Mol :=
  {| GetAtoms := [ {| GetSymbol := "P"; GetNumExplicitHs := 0 |};
                   {| GetSymbol := "P"; GetNumExplicitHs := 0 |} ];
     GetBonds := [];
     GetConformers := [ [ point 0 0 0; point 1.75 0 0 ]%float ];
     property_cache := None |}.

Definition distance_pm (conf : Conformer) (i j : nat) : float :=
  match conf !! i, conf !! j with
  | Some p, Some q => (np.fused_norm (np.sub p q) * 100)%float
  | _, _ => infinity
  end.

(** Single bonds between all pairs of atoms closer than 200 pm, each from
    the atom of higher index to the atom of lower index. *)
Definition connect (m : Mol) : Mol :=
  let n := length (GetAtoms m) in
  let conf := default [] (GetConformers m !! 0%nat) in
  with_bonds m
    (i ← seq 0 n; j ← seq 0 n;
     if bool_decide (j < i)%nat && Float64.lt_int (distance_pm conf i j) 200
     then [ {| GetBeginAtomIdx := i; GetEndAtomIdx := j;
               GetBondType := SINGLE |} ]
     else []).

Definition hydrogen : Atom := {| GetSymbol := "H"; GetNumExplicitHs := 0 |}.

(** One new hydrogen atom, bonded to its parent, for every explicit
    hydrogen an atom records; with [addCoords] the new atom is placed on
    its parent, otherwise at the origin. *)
Definition hydrogens_of (atoms : list Atom) : list nat :=
  i ← seq 0 (length atoms);
  replicate (default 0%nat (GetNumExplicitHs <$> atoms !! i)) i.

Definition add_hs (addCoords : bool) (m : Mol) : Mol :=
  let parents := hydrogens_of (GetAtoms m) in
  let n := length (GetAtoms m) in
  {| GetAtoms :=
       ((fun a => {| GetSymbol := GetSymbol a; GetNumExplicitHs := 0 |})
          <$> GetAtoms m) ++ ((fun _ => hydrogen) <$> parents);
     GetBonds :=
       GetBonds m ++
       imap (fun k p => {| GetBeginAtomIdx := p; GetEndAtomIdx := n + k;
                           GetBondType := SINGLE |}) parents;
     GetConformers :=
       (fun conf =>
          conf ++ ((fun p => if addCoords
                             then default (point 0 0 0) (conf !! p)
                             else point 0 0 0) <$> parents))
         <$> GetConformers m;
     property_cache := None |}.

Definition order (t : BondType) : nat :=
  match t with
  | SINGLE => 1 | DOUBLE => 2 | TRIPLE => 3 | _ => 0
  end.

(** The valence of an atom: the orders of its bonds, summed. *)
Definition valences (m : Mol) : PropertyCache :=
  (fun i =>
     sum_list ((fun b => if bool_decide (GetBeginAtomIdx b = i
                                         ∨ GetEndAtomIdx b = i)
                         then order (GetBondType b) else 0%nat)
                 <$> GetBonds m))
    <$> seq 0 (length (GetAtoms m)).

Definition symbols (m : Mol) : string :=
  foldr (fun a s => GetSymbol a +:+ s) "" (GetAtoms m).

Definition hydrogen_cyanide : Mol :=
  {| GetAtoms := [ {| GetSymbol := "C"; GetNumExplicitHs := 1 |};
                   {| GetSymbol := "N"; GetNumExplicitHs := 0 |} ];
     GetBonds := [ {| GetBeginAtomIdx := 0; GetEndAtomIdx := 1;
                      GetBondType := TRIPLE |} ];
     GetConformers := []; property_cache := None |}.

(** A conformer with the atoms one angstrom apart on a line, shifted by
    the seed. *)
Definition embed (seed : Z) (m : Mol) : Mol * Z :=
  ({| GetAtoms := GetAtoms m; GetBonds := GetBonds m;
      GetConformers :=
        [ (fun i => point (Float64.of_Z (seed + Z.of_nat i)) 0 0)
            <$> seq 0 (length (GetAtoms m)) ];
      property_cache := property_cache m |}, 0).

Definition xyz_block (m : Mol) : Res string :=
  match GetConformers m with
  | [] => Ok ""
  | _ :: _ => Ok (symbols m)
  end.

Definition optimize (m : Mol) : Res (Mol * Z) :=
  match GetConformers m with
  | [] => Raise ValueError
  | _ :: _ => Ok (m, 0)
  end.

Definition toolkit : Toolkit :=
  {| rdkit_MolFromXYZBlock xyz :=
       Ok (if String.eqb xyz propynal_xyz then Some propynal_parsed
           else if String.eqb xyz diphosphorus_xyz
                then Some diphosphorus_parsed
           else None);
     rdkit_MolFromSmiles smiles :=
       Ok (if String.eqb smiles "C#N" then Some hydrogen_cyanide else None);
     rdkit_DetermineConnectivity m := Ok (connect m);
     rdkit_DetermineBondOrders m := Ok m;
     rdkit_MolToSmiles m := Ok (symbols m);
     rdkit_MolToXYZBlock := xyz_block;
     rdkit_AddHs _ addCoords m := Ok (add_hs addCoords m);
     rdkit_EmbedMolecule seed m := Ok (embed seed m);
     rdkit_MMFFOptimizeMolecule := optimize;
     rdkit_UpdatePropertyCache m := Ok (valences m);
     numpy_linalg_norm := np.fused_norm |}.

Definition empty_state : State :=
  {| heap := []; trace := []; entropy := 0 |}.

(** A process that has already made objects and calls, and whose random
    source is elsewhere. *)
Definition busy_state : State :=
  {| heap := [hydrogen_cyanide; propynal_parsed];
     trace := [Called fn_MolToSmiles]; entropy := 42 |}.

End Sample.

(** ** Data for the edges

    Margins that lack their third entry, margins that differ from the
    sample ones only where the code does not look, and a toolkit in which
    things go wrong: its parser gives propynal without a conformer and
    knows a lone carbon atom, its embedding fails (conformer id -1, the
    molecule left as it was), and its optimizer raises when there is no
    conformer. *)

Module Edge.

Definition short_margins : Const :=
  {| BONDS_2 := @BONDS_2 Sample.tables;
     BONDS_3 := @BONDS_3 Sample.tables;
     MARGINS_EDM := [10; 5] |}.

Definition other_margins : Const :=
  {| BONDS_2 := @BONDS_2 Sample.tables;
     BONDS_3 := @BONDS_3 Sample.tables;
     MARGINS_EDM := [99; 5; 2; 7] |}.

Definition carbon_xyz : string :=
  "1

C 0.0 0.0 0.0
".

Definition carbon_parsed : Mol :=
  {| GetAtoms := [ {| GetSymbol := "C"; GetNumExplicitHs := 0 |} ];
     GetBonds := [];
     GetConformers := [ [ Sample.point 0 0 0 ] ];
     property_cache := None |}.

Definition propynal_without_conformer : Mol :=
  {| GetAtoms := Sample.propynal_atoms;
     GetBonds := [ {| GetBeginAtomIdx := 0; GetEndAtomIdx := 1;
                      GetBondType := SINGLE |} ];
     GetConformers := [];
     property_cache := None |}.

Definition toolkit : Toolkit :=
  {| rdkit_MolFromXYZBlock xyz :=
       Ok (if String.eqb xyz Sample.propynal_xyz
           then Some propynal_without_conformer
           else if String.eqb xyz carbon_xyz then Some carbon_parsed
           else None);
     rdkit_MolFromSmiles smiles :=
       Ok (if String.eqb smiles "C#N" then Some Sample.hydrogen_cyanide
           else None);
     rdkit_DetermineConnectivity m := Ok m;
     rdkit_DetermineBondOrders m := Ok m;
     rdkit_MolToSmiles m := Ok (Sample.symbols m);
     rdkit_MolToXYZBlock := Sample.xyz_block;
     rdkit_AddHs _ addCoords m := Ok (Sample.add_hs addCoords m);
     rdkit_EmbedMolecule seed m := Ok (m, -1);
     rdkit_MMFFOptimizeMolecule := Sample.optimize;
     rdkit_UpdatePropertyCache m := Ok (Sample.valences m);
     numpy_linalg_norm := np.fused_norm |}.

End Edge.

(** * Properties *)

(** ** Results and the store *)

Lemma res_bind_Ok {A B} (r : Res A) (k : A -> Res B) (b : B) :
  res_bind r k = Ok b <-> exists a, r = Ok a /\ k a = Ok b.
Proof.
  destruct r as [a|e]; simpl; split.
  - eauto.
  - intros (a' & Ha & Hk). congruence.
  - discriminate.
  - intros (a' & Ha & _). discriminate.
Qed.

Lemma getitem_Ok {A} (xs : list A) (i : nat) (x : A) :
  getitem xs i = Ok x <-> xs !! i = Some x.
Proof.
  unfold getitem. destruct (xs !! i); split; intros Heq; congruence.
Qed.

Lemma lookup_push (m : Mol) (s : State) :
  heap (push m s) !! length (heap s) = Some m.
Proof. simpl. apply list_lookup_middle. reflexivity. Qed.

Lemma lookup_put (l : loc) (m x : Mol) (s : State) :
  heap s !! l = Some x -> heap (put l m s) !! l = Some m.
Proof.
  intros Hl. simpl. apply list_lookup_insert_eq.
  eapply lookup_lt_Some. exact Hl.
Qed.

Lemma put_put (l : loc) (m1 m2 : Mol) (s : State) :
  put l m2 (put l m1 s) = put l m2 s.
Proof. unfold put. simpl. rewrite list_insert_insert_eq. reflexivity. Qed.

Lemma put_same (l : loc) (m : Mol) (s : State) :
  heap s !! l = Some m -> put l m s = s.
Proof.
  intros Hl. destruct s as [h t e]. unfold put. simpl in *.
  rewrite list_insert_id by exact Hl. reflexivity.
Qed.

Lemma with_bonds_same (m : Mol) : with_bonds m (GetBonds m) = m.
Proof. destruct m. reflexivity. Qed.

(** ** Comparisons of binary64 numbers *)

Lemma float_lt_irrefl (x : float) : PrimFloat.ltb x x = false.
Proof.
  rewrite FloatAxioms.ltb_spec. unfold SpecFloat.SFltb.
  destruct (FloatOps.Prim2SF x) as [sg|sg| |sg m e]; simpl;
    try reflexivity; try (destruct sg; reflexivity).
  destruct sg; rewrite Z.compare_refl, Pos.compare_cont_refl; reflexivity.
Qed.

Lemma float_nan_lt (y : float) : PrimFloat.ltb nan y = false.
Proof.
  rewrite FloatAxioms.ltb_spec. unfold SpecFloat.SFltb.
  change (FloatOps.Prim2SF nan) with SpecFloat.S754_nan. reflexivity.
Qed.

Lemma float_infinity_lt (y : float) : PrimFloat.ltb infinity y = false.
Proof.
  rewrite FloatAxioms.ltb_spec. unfold SpecFloat.SFltb.
  change (FloatOps.Prim2SF infinity) with (SpecFloat.S754_infinity false).
  destruct (FloatOps.Prim2SF y) as [sg|sg| |sg m e]; simpl;
    try reflexivity; destruct sg; reflexivity.
Qed.

Lemma SFltb_trans (a b c : SpecFloat.spec_float) :
  SpecFloat.SFltb a b = true -> SpecFloat.SFltb b c = true ->
  SpecFloat.SFltb a c = true.
Proof.
  unfold SpecFloat.SFltb, SpecFloat.SFcompare.
  destruct a as [s1|s1| |s1 m1 e1], b as [s2|s2| |s2 m2 e2],
    c as [s3|s3| |s3 m3 e3];
    try discriminate; try destruct s1; try destruct s2; try destruct s3;
    try discriminate; try reflexivity;
    change (Pos.compare_cont Eq) with Pos.compare;
    destruct (Z.compare_spec e1 e2), (Z.compare_spec e2 e3),
      (Z.compare_spec e1 e3); try discriminate; try lia; try reflexivity;
    destruct (Pos.compare_spec m1 m2), (Pos.compare_spec m2 m3),
      (Pos.compare_spec m1 m3); simpl;
    try discriminate; try lia; try reflexivity.
Qed.

Lemma float_lt_trans (x y z : float) :
  PrimFloat.ltb x y = true -> PrimFloat.ltb y z = true ->
  PrimFloat.ltb x z = true.
Proof. rewrite !FloatAxioms.ltb_spec. apply SFltb_trans. Qed.

(** ** The bond-order classifier *)

Section ClassifierFacts.
Context `{Const}.

(** The classifier only ever answers single, double or triple. *)
Lemma infer_bond_type_range (type_1 type_2 : string) (distance : float)
    (bond_type : BondType) :
  infer_bond_type type_1 type_2 distance = Ok bond_type ->
  bond_type = SINGLE \/ bond_type = DOUBLE \/ bond_type = TRIPLE.
Proof.
  unfold infer_bond_type.
  destruct (entry BONDS_2 type_1 type_2) as [b2|]; [|intros [= <-]; auto].
  destruct (getitem MARGINS_EDM 1) as [m1|e]; simpl; [|discriminate].
  destruct (Float64.lt_int distance (b2 + m1)); [|intros [= <-]; auto].
  destruct (entry BONDS_3 type_1 type_2) as [b3|]; [|intros [= <-]; auto].
  destruct (getitem MARGINS_EDM 2) as [m2|e]; simpl; [|discriminate].
  destruct (Float64.lt_int distance (b3 + m2)); intros [= <-]; auto.
Qed.

(** With entries in both tables the outcome is decided by the two
    thresholds, the double one first. *)
Lemma infer_bond_type_nested (type_1 type_2 : string) (distance : float)
    (b2 b3 m1 m2 : Z) :
  entry BONDS_2 type_1 type_2 = Some b2 ->
  entry BONDS_3 type_1 type_2 = Some b3 ->
  MARGINS_EDM !! 1%nat = Some m1 ->
  MARGINS_EDM !! 2%nat = Some m2 ->
  infer_bond_type type_1 type_2 distance =
    Ok (if Float64.lt_int distance (b2 + m1)
        then if Float64.lt_int distance (b3 + m2) then TRIPLE else DOUBLE
        else SINGLE).
Proof.
  intros H2 H3 Hm1 Hm2. unfold infer_bond_type, getitem.
  rewrite H2, H3, Hm1, Hm2. simpl.
  destruct (Float64.lt_int distance (b2 + m1)); [|reflexivity].
  destruct (Float64.lt_int distance (b3 + m2)); reflexivity.
Qed.

(** The flat chain of the specification agrees with the code at every
    distance that is below the double threshold whenever it is below the
    triple one, as it is when triple bonds are the shorter ones. *)
Lemma infer_bond_type_flat_when_ordered (type_1 type_2 : string)
    (distance : float) (b2 b3 m1 m2 : Z) :
  entry BONDS_2 type_1 type_2 = Some b2 ->
  entry BONDS_3 type_1 type_2 = Some b3 ->
  MARGINS_EDM !! 1%nat = Some m1 ->
  MARGINS_EDM !! 2%nat = Some m2 ->
  (Float64.lt_int distance (b3 + m2) = true ->
   Float64.lt_int distance (b2 + m1) = true) ->
  infer_bond_type type_1 type_2 distance =
    Ok (infer_bond_type_spec b2 m1 b3 m2 distance).
Proof.
  intros H2 H3 Hm1 Hm2 Hord.
  rewrite (infer_bond_type_nested _ _ _ b2 b3 m1 m2) by assumption.
  unfold infer_bond_type_spec.
  destruct (Float64.lt_int distance (b3 + m2)).
  - rewrite Hord by reflexivity. reflexivity.
  - destruct (Float64.lt_int distance (b2 + m1)); reflexivity.
Qed.

End ClassifierFacts.

(** C8: the classifier answers triple only for a pair with an entry in the
    double-bond table, at a distance below the margin-adjusted double
    threshold, and with an entry in the triple-bond table, at a distance
    below the margin-adjusted triple threshold.  A pair without an entry in
    the double-bond table, whatever the triple-bond table holds, never gives
    a triple bond. *)
Theorem triple_only_below_both_thresholds `{Const}
    (type_1 type_2 : string) (distance : float) :
  infer_bond_type type_1 type_2 distance = Ok TRIPLE ->
  (exists b2 m1 b3 m2 : Z,
     entry BONDS_2 type_1 type_2 = Some b2 /\
     MARGINS_EDM !! 1%nat = Some m1 /\
     Float64.lt_int distance (b2 + m1) = true /\
     entry BONDS_3 type_1 type_2 = Some b3 /\
     MARGINS_EDM !! 2%nat = Some m2 /\
     Float64.lt_int distance (b3 + m2) = true) /\
  entry BONDS_2 type_1 type_2 <> None.
Proof.
  unfold infer_bond_type, getitem.
  destruct (entry BONDS_2 type_1 type_2) as [b2|]; [|discriminate].
  destruct (MARGINS_EDM !! 1%nat) as [m1|]; simpl; [|discriminate].
  destruct (Float64.lt_int distance (b2 + m1)) eqn:Hlt2; [|discriminate].
  destruct (entry BONDS_3 type_1 type_2) as [b3|]; [|discriminate].
  destruct (MARGINS_EDM !! 2%nat) as [m2|]; simpl; [|discriminate].
  destruct (Float64.lt_int distance (b3 + m2)) eqn:Hlt3; [|discriminate].
  intros _. split; [|discriminate].
  exists b2, m1, b3, m2. repeat split; assumption.
Qed.

Lemma triple_only_below_both_thresholds_witness :
  (exists b2 m1 b3 m2 : Z,
     @entry (@BONDS_2 Sample.tables) "C" "N" = Some b2 /\
     @MARGINS_EDM Sample.tables !! 1%nat = Some m1 /\
     Float64.lt_int 115.5 (b2 + m1) = true /\
     @entry (@BONDS_3 Sample.tables) "C" "N" = Some b3 /\
     @MARGINS_EDM Sample.tables !! 2%nat = Some m2 /\
     Float64.lt_int 115.5 (b3 + m2) = true) /\
  @entry (@BONDS_2 Sample.tables) "C" "N" <> None.
Proof.
  exact (@triple_only_below_both_thresholds Sample.tables "C" "N" 115.5
           eq_refl).
Defined.

(** ** The loop over the bonds *)

Section Loop.
Context `{Const} `{Toolkit}.

Lemma correct_bond_run (l : loc) (positions : list Point3D) (k : nat)
    (s : State) (m : Mol) :
  heap s !! l = Some m ->
  correct_bond l positions k s =
    match getitem (GetBonds m) k with
    | Ok bond =>
        match classify_bond (GetAtoms m) positions bond with
        | Ok bond_type =>
            (Ok tt,
             put l (with_bonds m (<[k := SetBondType bond_type bond]>
                                    (GetBonds m))) s)
        | Raise e => (Raise e, s)
        end
    | Raise e => (Raise e, s)
    end.
Proof.
  intros Hl. unfold correct_bond, classify_bond, bind, deref, lift, store.
  rewrite Hl.
  destruct (getitem (GetBonds m) k) as [bond|e]; [|reflexivity].
  destruct (getitem (GetAtoms m) (GetBeginAtomIdx bond)); [|reflexivity].
  destruct (getitem (GetAtoms m) (GetEndAtomIdx bond)); [|reflexivity].
  destruct (getitem positions (GetBeginAtomIdx bond)); [|reflexivity].
  destruct (getitem positions (GetEndAtomIdx bond)); [|reflexivity].
  simpl. destruct (infer_bond_type _ _ _); reflexivity.
Qed.

(** The loop turns the bonds still to do into [retype] of them and leaves
    the rest of the molecule, and every other object, as it was; it ends
    with the first exception of [retype]. *)
Lemma for_each_correct_bond (l : loc) (positions : list Point3D)
    (todo : list Bond) :
  forall (done : list Bond) (m : Mol) (s : State),
    heap s !! l = Some m ->
    GetBonds m = done ++ todo ->
    match retype (GetAtoms m) positions todo with
    | Ok todo' =>
        for_each (seq (length done) (length todo))
          (correct_bond l positions) s
        = (Ok tt, put l (with_bonds m (done ++ todo')) s)
    | Raise e =>
        fst (for_each (seq (length done) (length todo))
               (correct_bond l positions) s) = Raise e
    end.
Proof.
  induction todo as [|bond rest IH]; intros done m s Hl Hbonds.
  - cbn [retype length seq for_each]. unfold ret.
    rewrite <- Hbonds, with_bonds_same.
    rewrite put_same by exact Hl. reflexivity.
  - cbn [retype length seq for_each]. unfold bind.
    rewrite (correct_bond_run _ _ _ _ m Hl).
    assert (Hk : getitem (GetBonds m) (length done) = Ok bond).
    { apply getitem_Ok. rewrite Hbonds.
      apply list_lookup_middle. reflexivity. }
    rewrite Hk.
    destruct (classify_bond (GetAtoms m) positions bond) as [bond_type|e];
      [|reflexivity].
    cbn [res_bind].
    set (bond' := SetBondType bond_type bond).
    set (m1 := with_bonds m (<[length done := bond']> (GetBonds m))).
    assert (Hbonds1 : GetBonds m1 = (done ++ [bond']) ++ rest).
    { unfold m1. simpl. rewrite Hbonds.
      rewrite insert_app_r_alt by reflexivity.
      rewrite Nat.sub_diag. simpl. rewrite <- app_assoc. reflexivity. }
    specialize (IH (done ++ [bond']) m1 (put l m1 s)
                  (lookup_put _ _ _ _ Hl) Hbonds1).
    rewrite length_app, Nat.add_1_r in IH.
    change (GetAtoms m1) with (GetAtoms m) in IH.
    destruct (retype (GetAtoms m) positions rest) as [rest'|e].
    + rewrite IH. cbn [res_bind]. rewrite put_put.
      rewrite <- app_assoc. reflexivity.
    + exact IH.
Qed.

Lemma retype_lookup (atoms : list Atom) (positions : list Point3D)
    (bonds bonds' : list Bond) :
  retype atoms positions bonds = Ok bonds' ->
  length bonds' = length bonds /\
  forall (k : nat) (bond : Bond),
    bonds !! k = Some bond ->
    exists bond_type,
      classify_bond atoms positions bond = Ok bond_type /\
      bonds' !! k = Some (SetBondType bond_type bond).
Proof.
  revert bonds'.
  induction bonds as [|b rest IH]; intros bonds'; simpl.
  - intros [= <-]. split; [reflexivity|]. intros k bond Hk.
    rewrite lookup_nil in Hk. discriminate.
  - intros Hr. apply res_bind_Ok in Hr as (bond_type & Hb & Hr).
    apply res_bind_Ok in Hr as (rest' & Hrest & [= <-]).
    destruct (IH rest' Hrest) as [Hlen Hall].
    split; [simpl; congruence|].
    intros [|k] bond Hk; simpl in Hk.
    + injection Hk as <-. exists bond_type. split; [exact Hb|reflexivity].
    + exact (Hall k bond Hk).
Qed.

(** When every bond can be classified, the loop goes through. *)
Lemma retype_total (atoms : list Atom) (positions : list Point3D)
    (bonds : list Bond) :
  Forall (fun bond => exists bond_type,
            classify_bond atoms positions bond = Ok bond_type) bonds ->
  exists bonds', retype atoms positions bonds = Ok bonds'.
Proof.
  induction 1 as [|b rest [bond_type Hb] _ [rest' Hrest]]; simpl.
  - eauto.
  - rewrite Hb, Hrest. simpl. eauto.
Qed.

End Loop.

(** ** What one toolkit call does to the state *)

Section Calls.
Context `{Toolkit}.

Lemma MolFromXYZBlock_run (xyz : string) (s : State) :
  Chem.MolFromXYZBlock xyz s =
    let s1 := record (Called fn_MolFromXYZBlock) s in
    match rdkit_MolFromXYZBlock xyz with
    | Ok (Some m) => (Ok (Some (length (heap s))), push m s1)
    | Ok None => (Ok None, s1)
    | Raise e => (Raise e, s1)
    end.
Proof.
  unfold Chem.MolFromXYZBlock, Chem.new_object, bind, emit, lift, alloc, ret.
  destruct (rdkit_MolFromXYZBlock xyz) as [[m|]|e]; reflexivity.
Qed.

Lemma MolFromSmiles_run (smiles : string) (s : State) :
  Chem.MolFromSmiles smiles s =
    let s1 := record (Called fn_MolFromSmiles) s in
    match rdkit_MolFromSmiles smiles with
    | Ok (Some m) => (Ok (Some (length (heap s))), push m s1)
    | Ok None => (Ok None, s1)
    | Raise e => (Raise e, s1)
    end.
Proof.
  unfold Chem.MolFromSmiles, Chem.new_object, bind, emit, lift, alloc, ret.
  destruct (rdkit_MolFromSmiles smiles) as [[m|]|e]; reflexivity.
Qed.

Lemma DetermineConnectivity_run (l : loc) (m : Mol) (s : State) :
  heap s !! l = Some m ->
  rdDetermineBonds.DetermineConnectivity (Some l) s =
    let s1 := record (Called fn_DetermineConnectivity) s in
    match rdkit_DetermineConnectivity m with
    | Ok m' => (Ok tt, put l m' s1)
    | Raise e => (Raise e, s1)
    end.
Proof.
  intros Hl.
  unfold rdDetermineBonds.DetermineConnectivity, bind, emit, arg, deref,
    lift, store, ret.
  simpl. rewrite Hl.
  destruct (rdkit_DetermineConnectivity m); reflexivity.
Qed.

Lemma DetermineBondOrders_run (l : loc) (m : Mol) (s : State) :
  heap s !! l = Some m ->
  rdDetermineBonds.DetermineBondOrders (Some l) s =
    let s1 := record (Called fn_DetermineBondOrders) s in
    match rdkit_DetermineBondOrders m with
    | Ok m' => (Ok tt, put l m' s1)
    | Raise e => (Raise e, s1)
    end.
Proof.
  intros Hl.
  unfold rdDetermineBonds.DetermineBondOrders, bind, emit, arg, deref,
    lift, store, ret.
  simpl. rewrite Hl.
  destruct (rdkit_DetermineBondOrders m); reflexivity.
Qed.

Lemma MolToSmiles_run (l : loc) (m : Mol) (s : State) :
  heap s !! l = Some m ->
  Chem.MolToSmiles (Some l) s =
    (rdkit_MolToSmiles m, record (Called fn_MolToSmiles) s).
Proof.
  intros Hl.
  unfold Chem.MolToSmiles, bind, emit, arg, deref, lift, ret.
  simpl. rewrite Hl. reflexivity.
Qed.

Lemma MolToXYZBlock_run (l : loc) (m : Mol) (s : State) :
  heap s !! l = Some m ->
  Chem.MolToXYZBlock (Some l) s =
    (rdkit_MolToXYZBlock m, record (Called fn_MolToXYZBlock) s).
Proof.
  intros Hl.
  unfold Chem.MolToXYZBlock, bind, emit, arg, deref, lift, ret.
  simpl. rewrite Hl. reflexivity.
Qed.

Lemma AddHs_run (l : loc) (m : Mol) (explicitOnly addCoords : bool)
    (s : State) :
  heap s !! l = Some m ->
  Chem.AddHs (Some l) explicitOnly addCoords s =
    let s1 := record (Called fn_AddHs) s in
    match rdkit_AddHs explicitOnly addCoords m with
    | Ok m' => (Ok (Some (length (heap s))), push m' s1)
    | Raise e => (Raise e, s1)
    end.
Proof.
  intros Hl.
  unfold Chem.AddHs, bind, emit, arg, deref, lift, alloc, ret.
  simpl. rewrite Hl.
  destruct (rdkit_AddHs explicitOnly addCoords m); reflexivity.
Qed.

Lemma EmbedMolecule_run (l : loc) (m : Mol) (randomSeed : Z) (s : State) :
  heap s !! l = Some m ->
  randomSeed <> -1 ->
  AllChem.EmbedMolecule (Some l) randomSeed s =
    let s1 := record (Called fn_EmbedMolecule) s in
    match rdkit_EmbedMolecule randomSeed m with
    | Ok r => (Ok (snd r), put l (fst r) s1)
    | Raise e => (Raise e, s1)
    end.
Proof.
  intros Hl Hseed.
  unfold AllChem.EmbedMolecule, bind, emit, arg, deref, lift, store, ret.
  simpl. rewrite Hl.
  destruct (Z.eqb_spec randomSeed (-1)) as [Heq|_]; [contradiction|].
  destruct (rdkit_EmbedMolecule randomSeed m); reflexivity.
Qed.

Lemma MMFFOptimizeMolecule_run (l : loc) (m : Mol) (s : State) :
  heap s !! l = Some m ->
  AllChem.MMFFOptimizeMolecule (Some l) s =
    let s1 := record (Called fn_MMFFOptimizeMolecule) s in
    match rdkit_MMFFOptimizeMolecule m with
    | Ok r => (Ok (snd r), put l (fst r) s1)
    | Raise e => (Raise e, s1)
    end.
Proof.
  intros Hl.
  unfold AllChem.MMFFOptimizeMolecule, bind, emit, arg, deref, lift, store,
    ret.
  simpl. rewrite Hl.
  destruct (rdkit_MMFFOptimizeMolecule m); reflexivity.
Qed.

Lemma UpdatePropertyCache_run (l : loc) (m : Mol) (s : State) :
  heap s !! l = Some m ->
  Chem.UpdatePropertyCache (Some l) s =
    let s1 := record (Called fn_UpdatePropertyCache) s in
    match rdkit_UpdatePropertyCache m with
    | Ok c => (Ok tt, put l (with_property_cache m c) s1)
    | Raise e => (Raise e, s1)
    end.
Proof.
  intros Hl.
  unfold Chem.UpdatePropertyCache, bind, emit, self, deref, lift, store,
    ret.
  simpl. rewrite Hl.
  destruct (rdkit_UpdatePropertyCache m); reflexivity.
Qed.

Lemma GetConformer_run (l : loc) (m : Mol) (id : nat) (s : State) :
  heap s !! l = Some m ->
  Chem.GetConformer (Some l) id s =
    match GetConformers m !! id with
    | Some c => (Ok c, s)
    | None => (Raise ValueError, s)
    end.
Proof.
  intros Hl. unfold Chem.GetConformer, bind, self, deref, ret, raise.
  rewrite Hl. destruct (GetConformers m !! id); reflexivity.
Qed.

Lemma GetBonds_run (l : loc) (m : Mol) (s : State) :
  heap s !! l = Some m ->
  Chem.GetBonds (Some l) s = (Ok (seq 0 (length (GetBonds m))), s).
Proof.
  intros Hl. unfold Chem.GetBonds, bind, self, deref, ret.
  rewrite Hl. reflexivity.
Qed.

End Calls.

(** ** [smiles_to_xyz], call by call *)

Ltac finish_events :=
  simpl; rewrite <- ?app_assoc; rewrite drop_app_length;
  split; [reflexivity | try reflexivity; intros []].

Section SmilesToXyz.
Context {tables : Const} {tk : Toolkit}.

(** The whole of [smiles_to_xyz]: where it stops, with which result, and
    in which state. *)
Lemma smiles_to_xyz_run (smiles : string) (s : State) :
  smiles_to_xyz smiles s =
    let l := S (length (heap s)) in
    let s1 := record (Called fn_MolFromSmiles) (record LockAcquire s) in
    match rdkit_MolFromSmiles smiles with
    | Raise e => (Raise e, record LockRelease s1)
    | Ok None =>
        (Raise ArgumentError,
         record LockRelease (record (Called fn_AddHs) s1))
    | Ok (Some m0) =>
        let s2 := record (Called fn_AddHs) (push m0 s1) in
        match rdkit_AddHs false false m0 with
        | Raise e => (Raise e, record LockRelease s2)
        | Ok m1 =>
            let s3 := record (Called fn_EmbedMolecule) (push m1 s2) in
            match rdkit_EmbedMolecule 1 m1 with
            | Raise e => (Raise e, record LockRelease s3)
            | Ok r2 =>
                let s4 := record (Called fn_MMFFOptimizeMolecule)
                            (put l (fst r2) s3) in
                match rdkit_MMFFOptimizeMolecule (fst r2) with
                | Raise e => (Raise e, record LockRelease s4)
                | Ok r3 =>
                    let s5 := record (Called fn_MolToXYZBlock)
                                (put l (fst r3) s4) in
                    (rdkit_MolToXYZBlock (fst r3), record LockRelease s5)
                end
            end
        end
    end.
Proof.
  unfold smiles_to_xyz, with_lock, bind. rewrite MolFromSmiles_run.
  cbn zeta.
  destruct (rdkit_MolFromSmiles smiles) as [[m0|]|e]; try reflexivity.
  set (s1 := push m0 _).
  assert (Hm0 : heap s1 !! length (heap s) = Some m0)
    by apply (lookup_push m0 (record _ (record _ s))).
  rewrite (AddHs_run _ m0 _ _ _ Hm0). cbn zeta.
  destruct (rdkit_AddHs false false m0) as [m1|e]; [|reflexivity].
  assert (Hlen : length (heap s1) = S (length (heap s))).
  { unfold s1. simpl. rewrite length_app. simpl. lia. }
  rewrite Hlen. set (l := S (length (heap s))).
  set (s2 := push m1 _).
  assert (Hm1 : heap s2 !! l = Some m1).
  { unfold l. rewrite <- Hlen.
    apply (lookup_push m1 (record (Called fn_AddHs) s1)). }
  rewrite (EmbedMolecule_run _ m1 _ _ Hm1) by discriminate. cbn zeta.
  destruct (rdkit_EmbedMolecule 1 m1) as [r2|e]; [|reflexivity].
  set (s3 := put l _ _).
  assert (Hm2 : heap s3 !! l = Some (fst r2))
    by apply (lookup_put l _ m1 (record (Called fn_EmbedMolecule) s2) Hm1).
  rewrite (MMFFOptimizeMolecule_run _ _ _ Hm2). cbn zeta.
  destruct (rdkit_MMFFOptimizeMolecule (fst r2)) as [r3|e]; [|reflexivity].
  set (s4 := put l _ _).
  assert (Hm3 : heap s4 !! l = Some (fst r3)).
  { apply (lookup_put l _ (fst r2)
             (record (Called fn_MMFFOptimizeMolecule) s3) Hm2). }
  rewrite (MolToXYZBlock_run _ _ _ Hm3).
  destruct (rdkit_MolToXYZBlock (fst r3)); reflexivity.
Qed.

(** The events of one invocation: the lock is taken first and released
    last, and in between come the first [n] calls of the body, [n] being
    where an exception, if any, ended it. *)
Lemma smiles_to_xyz_events (smiles : string) (s : State) :
  exists n : nat,
    events_of (smiles_to_xyz smiles) s =
      LockAcquire :: (Called <$> take n smiles_to_xyz_calls)
        ++ [LockRelease] /\
    (is_Ok (fst (smiles_to_xyz smiles s)) -> n = 5%nat).
Proof.
  unfold events_of. rewrite smiles_to_xyz_run. cbn zeta.
  destruct (rdkit_MolFromSmiles smiles) as [[m0|]|e];
    [|exists 2%nat; finish_events|exists 1%nat; finish_events].
  destruct (rdkit_AddHs false false m0) as [m1|e];
    [|exists 2%nat; finish_events].
  destruct (rdkit_EmbedMolecule 1 m1) as [r2|e];
    [|exists 3%nat; finish_events].
  destruct (rdkit_MMFFOptimizeMolecule (fst r2)) as [r3|e];
    [|exists 4%nat; finish_events].
  exists 5%nat. finish_events.
Qed.

End SmilesToXyz.

(** ** [xyz_to_mol] and [unsaturated_xyz_to_mol], call by call *)

Lemma insert_last {A} (h : list A) (x y : A) :
  <[length h := x]> (h ++ [y]) = h ++ [x].
Proof.
  rewrite insert_app_r_alt by reflexivity.
  rewrite Nat.sub_diag. reflexivity.
Qed.

Lemma insert_last_but_one {A} (h : list A) (x y z : A) :
  <[length h := x]> (h ++ [y; z]) = h ++ [x; z].
Proof.
  rewrite insert_app_r_alt by reflexivity.
  rewrite Nat.sub_diag. reflexivity.
Qed.

(** Two equations for the same call with different outcomes. *)
Ltac clash :=
  solve [repeat match goal with
    | E : _ = _ |- _ => discriminate E
    | E : Ok (Some _) = Ok (Some _) |- _ => injection E as <-
    | E : ?x = _, E' : ?x = _ |- _ =>
        rewrite E in E'; first [discriminate E' | injection E' as <-]
    end].

(** Two states are equal when their stores and traces are, once the
    updates have been carried out. *)
Ltac state_eq :=
  unfold put, push, record; simpl; f_equal;
  [ rewrite ?insert_last, <- ?app_assoc, ?insert_last_but_one; reflexivity
  | rewrite <- ?app_assoc; reflexivity ].

Section XyzToMol.
Context {tables : Const} {tk : Toolkit}.

(** [xyz_to_mol] returns exactly when the parser reads the text and both
    determination steps go through; its result is then a reference to a
    new object that holds the molecule they produce. *)
Lemma xyz_to_mol_Ok (xyz : string) (s s' : State) (mol : option loc) :
  xyz_to_mol xyz s = (Ok mol, s') <->
  exists m0 m1 m2,
    rdkit_MolFromXYZBlock xyz = Ok (Some m0) /\
    rdkit_DetermineConnectivity m0 = Ok m1 /\
    rdkit_DetermineBondOrders m1 = Ok m2 /\
    mol = Some (length (heap s)) /\
    s' = {| heap := heap s ++ [m2];
            trace := trace s ++ [Called fn_MolFromXYZBlock;
                                 Called fn_DetermineConnectivity;
                                 Called fn_DetermineBondOrders];
            entropy := entropy s |}.
Proof.
  unfold xyz_to_mol, bind. rewrite MolFromXYZBlock_run. cbn zeta.
  destruct (rdkit_MolFromXYZBlock xyz) as [[m0|]|e] eqn:E0;
    [| split; [discriminate | intros (?&?&?&?&_); discriminate] ..].
  set (l := length (heap s)).
  set (s1 := push m0 _).
  assert (Hm0 : heap s1 !! l = Some m0)
    by apply (lookup_push m0 (record _ s)).
  rewrite (DetermineConnectivity_run _ _ _ Hm0). cbn zeta.
  destruct (rdkit_DetermineConnectivity m0) as [m1|e] eqn:E1;
    [| split; [discriminate | intros (?&?&?&[= <-]&?&_); congruence]].
  set (s2 := put l m1 _).
  assert (Hm1 : heap s2 !! l = Some m1)
    by apply (lookup_put l m1 m0 (record _ s1) Hm0).
  rewrite (DetermineBondOrders_run _ _ _ Hm1). cbn zeta.
  destruct (rdkit_DetermineBondOrders m1) as [m2|e] eqn:E2;
    [| split; [discriminate
              | intros (?&?&?&[= <-]&?&?&_); congruence]].
  assert (Hs : put l m2 (record (Called fn_DetermineBondOrders) s2)
               = {| heap := heap s ++ [m2];
                    trace := trace s ++ [Called fn_MolFromXYZBlock;
                                         Called fn_DetermineConnectivity;
                                         Called fn_DetermineBondOrders];
                    entropy := entropy s |}).
  { unfold s2, s1, l. state_eq. }
  rewrite Hs. unfold ret. split.
  - intros [= <- <-]. exists m0, m1, m2. auto.
  - intros (m0' & m1' & m2' & [= <-] & E1' & E2' & -> & ->).
    rewrite E1 in E1'. injection E1' as <-.
    rewrite E2 in E2'. injection E2' as <-. reflexivity.
Qed.

(** [xyz_to_mol] never returns [None]: it returns a reference to the
    molecule, or raises. *)
Lemma xyz_to_mol_returns_object (xyz : string) (s s' : State)
    (mol : option loc) :
  xyz_to_mol xyz s = (Ok mol, s') ->
  exists l m, mol = Some l /\ heap s' !! l = Some m.
Proof.
  intros Hrun. apply xyz_to_mol_Ok in Hrun
    as (m0 & m1 & m2 & _ & _ & _ & -> & ->).
  exists (length (heap s)), m2. split; [reflexivity|].
  simpl. apply list_lookup_middle. reflexivity.
Qed.


(** [unsaturated_xyz_to_mol] returns exactly when the parser reads the
    text, connectivity is found, there is a conformer 0, every bond can
    be classified, and the last two toolkit calls go through.  What it
    returns is the reference to the object the parser made, which then
    holds the molecule with its bonds retyped and its property cache
    filled; the molecule [AddHs] builds is a second object. *)
Lemma unsaturated_xyz_to_mol_Ok (xyz : string) (s s' : State)
    (mol : option loc) :
  unsaturated_xyz_to_mol xyz s = (Ok mol, s') <->
  exists m0 m1 conformer bonds' cache mh,
    rdkit_MolFromXYZBlock xyz = Ok (Some m0) /\
    rdkit_DetermineConnectivity m0 = Ok m1 /\
    GetConformers m1 !! 0%nat = Some conformer /\
    retype (GetAtoms m1) conformer (GetBonds m1) = Ok bonds' /\
    rdkit_UpdatePropertyCache (with_bonds m1 bonds') = Ok cache /\
    rdkit_AddHs true true
      (with_property_cache (with_bonds m1 bonds') cache) = Ok mh /\
    mol = Some (length (heap s)) /\
    s' = {| heap := heap s ++
              [with_property_cache (with_bonds m1 bonds') cache; mh];
            trace := trace s ++ [Called fn_MolFromXYZBlock;
                                 Called fn_DetermineConnectivity;
                                 Called fn_UpdatePropertyCache;
                                 Called fn_AddHs];
            entropy := entropy s |}.
Proof.
  unfold unsaturated_xyz_to_mol, bind. rewrite MolFromXYZBlock_run.
  cbn zeta.
  destruct (rdkit_MolFromXYZBlock xyz) as [[m0|]|e] eqn:E0;
    [| split; [discriminate | intros (?&?&?&?&?&?&?&_); clash] ..].
  set (l := length (heap s)).
  set (s1 := push m0 _).
  assert (Hm0 : heap s1 !! l = Some m0)
    by apply (lookup_push m0 (record _ s)).
  rewrite (DetermineConnectivity_run _ _ _ Hm0). cbn zeta.
  destruct (rdkit_DetermineConnectivity m0) as [m1|e] eqn:E1;
    [| split; [discriminate | intros (?&?&?&?&?&?&?&?&_); clash]].
  set (s2 := put l m1 _).
  assert (Hm1 : heap s2 !! l = Some m1)
    by apply (lookup_put l m1 m0 (record _ s1) Hm0).
  rewrite (GetConformer_run _ _ _ _ Hm1).
  destruct (GetConformers m1 !! 0%nat) as [conformer|] eqn:E2;
    [| split; [discriminate | intros (?&?&?&?&?&?&?&?&?&_); clash]].
  cbn [self ret]. rewrite (GetBonds_run _ _ _ Hm1).
  unfold Chem.GetPositions.
  pose proof (for_each_correct_bond l conformer (GetBonds m1) [] m1 s2
                Hm1 eq_refl) as Hloop.
  cbn [length app] in Hloop.
  destruct (retype (GetAtoms m1) conformer (GetBonds m1))
    as [bonds'|e] eqn:E3.
  2:{ destruct (for_each _ _ s2) as [r sx]. simpl in Hloop. subst r.
      split; [discriminate | intros (?&?&?&?&?&?&?&?&?&?&_); clash]. }
  rewrite Hloop.
  set (m2 := with_bonds m1 bonds').
  set (s3 := put l m2 s2).
  assert (Hm2 : heap s3 !! l = Some m2)
    by apply (lookup_put l m2 m1 s2 Hm1).
  rewrite (UpdatePropertyCache_run _ _ _ Hm2). cbn zeta.
  destruct (rdkit_UpdatePropertyCache m2) as [cache|e] eqn:E4.
  2:{ split; [discriminate|].
      intros (?&?&?&?&?&?&?&?&?&?&?&_).
      unfold m2 in E4. clash. }
  set (m3 := with_property_cache m2 cache).
  set (s4 := put l m3 _).
  assert (Hm3 : heap s4 !! l = Some m3)
    by apply (lookup_put l m3 m2 (record _ s3) Hm2).
  rewrite (AddHs_run _ _ _ _ _ Hm3). cbn zeta.
  destruct (rdkit_AddHs true true m3) as [mh|e] eqn:E5.
  2:{ split; [discriminate|].
      intros (?&?&?&?&?&?&?&?&?&?&?&?&_).
      unfold m3, m2 in E4, E5. clash. }
  assert (Hs : push mh (record (Called fn_AddHs) s4)
               = {| heap := heap s ++ [m3; mh];
                    trace := trace s ++ [Called fn_MolFromXYZBlock;
                                         Called fn_DetermineConnectivity;
                                         Called fn_UpdatePropertyCache;
                                         Called fn_AddHs];
                    entropy := entropy s |}).
  { unfold s4, s3, s2, s1, l. state_eq. }
  rewrite Hs. split.
  - intros [= <- <-]. exists m0, m1, conformer, bonds', cache, mh.
    repeat (split; [first [assumption | reflexivity]|]). reflexivity.
  - intros (m0' & m1' & conf' & bs' & c' & mh' & [= <-] & E1' & E2' & E3'
            & E4' & E5' & -> & ->).
    rewrite E1 in E1'. injection E1' as <-.
    rewrite E2 in E2'. injection E2' as <-.
    rewrite E3 in E3'. injection E3' as <-.
    change (rdkit_UpdatePropertyCache m2 = Ok c') in E4'.
    rewrite E4 in E4'. injection E4' as <-.
    change (rdkit_AddHs true true m3 = Ok mh') in E5'.
    rewrite E5 in E5'. injection E5' as <-.
    reflexivity.
Qed.

End XyzToMol.

(** ** The molecule [unsaturated_xyz_to_mol] returns *)

Section Returned.
Context {tables : Const} {tk : Toolkit}.

Lemma classify_bond_Ok (atoms : list Atom) (positions : list Point3D)
    (bond : Bond) (bond_type : BondType) :
  classify_bond atoms positions bond = Ok bond_type <->
  exists atom_1 atom_2 p1 p2,
    atoms !! GetBeginAtomIdx bond = Some atom_1 /\
    atoms !! GetEndAtomIdx bond = Some atom_2 /\
    positions !! GetBeginAtomIdx bond = Some p1 /\
    positions !! GetEndAtomIdx bond = Some p2 /\
    infer_bond_type (GetSymbol atom_1) (GetSymbol atom_2)
      (bond_distance p1 p2) = Ok bond_type.
Proof.
  unfold classify_bond. split.
  - intros Hc.
    apply res_bind_Ok in Hc as (atom_1 & Ha1 & Hc).
    apply res_bind_Ok in Hc as (atom_2 & Ha2 & Hc).
    apply res_bind_Ok in Hc as (p1 & Hp1 & Hc).
    apply res_bind_Ok in Hc as (p2 & Hp2 & Hc).
    apply getitem_Ok in Ha1, Ha2, Hp1, Hp2.
    exists atom_1, atom_2, p1, p2. auto.
  - intros (atom_1 & atom_2 & p1 & p2 & Ha1 & Ha2 & Hp1 & Hp2 & Hc).
    apply getitem_Ok in Ha1, Ha2, Hp1, Hp2.
    rewrite Ha1, Ha2, Hp1, Hp2. exact Hc.
Qed.

(** Every bond of the retyped list is a bond of the old list, at the same
    place and between the same atoms, with the type the classifier gave. *)
Lemma retype_bond (atoms : list Atom) (positions : list Point3D)
    (bonds bonds' : list Bond) (k : nat) (bond' : Bond) :
  retype atoms positions bonds = Ok bonds' ->
  bonds' !! k = Some bond' ->
  exists bond,
    bonds !! k = Some bond /\
    GetBeginAtomIdx bond' = GetBeginAtomIdx bond /\
    GetEndAtomIdx bond' = GetEndAtomIdx bond /\
    classify_bond atoms positions bond = Ok (GetBondType bond').
Proof.
  intros Hr Hk. destruct (retype_lookup _ _ _ _ Hr) as [Hlen Hall].
  destruct (lookup_lt_is_Some_2 bonds k) as [bond Hbond].
  { rewrite <- Hlen. eapply lookup_lt_Some. exact Hk. }
  destruct (Hall k bond Hbond) as (bond_type & Hc & Hk').
  rewrite Hk in Hk'. injection Hk' as ->.
  exists bond. auto.
Qed.

(** What a normal return tells: the result is the reference to the object
    the parser made; that object holds the atoms and conformers found by
    [DetermineConnectivity] and the retyped bonds; and it is the argument,
    not the result, of [AddHs], whose result is the object next to it. *)
Lemma unsaturated_xyz_to_mol_returned (xyz : string) (s s' : State)
    (mol : option loc) :
  unsaturated_xyz_to_mol xyz s = (Ok mol, s') ->
  exists m0 m1 conformer m mh,
    rdkit_MolFromXYZBlock xyz = Ok (Some m0) /\
    rdkit_DetermineConnectivity m0 = Ok m1 /\
    mol = Some (length (heap s)) /\
    heap s' !! length (heap s) = Some m /\
    heap s' !! S (length (heap s)) = Some mh /\
    rdkit_AddHs true true m = Ok mh /\
    GetAtoms m = GetAtoms m1 /\
    GetConformers m = GetConformers m1 /\
    GetConformers m !! 0%nat = Some conformer /\
    retype (GetAtoms m) conformer (GetBonds m1) = Ok (GetBonds m).
Proof.
  intros Hrun. apply unsaturated_xyz_to_mol_Ok in Hrun
    as (m0 & m1 & conformer & bonds' & cache & mh
        & E0 & E1 & E2 & E3 & E4 & E5 & -> & ->).
  exists m0, m1, conformer,
    (with_property_cache (with_bonds m1 bonds') cache), mh.
  repeat (split; [first [assumption | reflexivity]|]).
  split; [|split; [|repeat (split; [first [assumption|reflexivity]|]);
                    exact E3]].
  - simpl. apply list_lookup_middle. reflexivity.
  - simpl. rewrite lookup_app_r by lia.
    replace (S (length (heap s)) - length (heap s))%nat with 1%nat by lia.
    reflexivity.
Qed.

(** Bond by bond: the type of a bond of the returned molecule is the
    answer of the classifier for the symbols of its two atoms and the
    distance between their positions in conformer 0. *)
Lemma unsaturated_xyz_to_mol_bond (xyz : string) (s s' : State)
    (mol : option loc) :
  unsaturated_xyz_to_mol xyz s = (Ok mol, s') ->
  exists l m conformer,
    mol = Some l /\
    heap s' !! l = Some m /\
    GetConformers m !! 0%nat = Some conformer /\
    forall (k : nat) (bond : Bond),
      GetBonds m !! k = Some bond ->
      exists atom_1 atom_2 p1 p2,
        GetAtoms m !! GetBeginAtomIdx bond = Some atom_1 /\
        GetAtoms m !! GetEndAtomIdx bond = Some atom_2 /\
        conformer !! GetBeginAtomIdx bond = Some p1 /\
        conformer !! GetEndAtomIdx bond = Some p2 /\
        infer_bond_type (GetSymbol atom_1) (GetSymbol atom_2)
          (bond_distance p1 p2) = Ok (GetBondType bond).
Proof.
  intros Hrun. apply unsaturated_xyz_to_mol_returned in Hrun
    as (m0 & m1 & conformer & m & mh
        & _ & _ & -> & Hm & _ & _ & _ & _ & Hconf & Hretype).
  exists (length (heap s)), m, conformer.
  repeat (split; [first [assumption | reflexivity]|]).
  intros k bond Hk.
  destruct (retype_bond _ _ _ _ _ _ Hretype Hk)
    as (bond0 & _ & Hbegin & Hend & Hc).
  apply classify_bond_Ok in Hc
    as (atom_1 & atom_2 & p1 & p2 & Ha1 & Ha2 & Hp1 & Hp2 & Hc).
  rewrite <- Hbegin in Ha1, Hp1. rewrite <- Hend in Ha2, Hp2.
  exists atom_1, atom_2, p1, p2. auto.
Qed.

End Returned.

(** C9: in the molecule [unsaturated_xyz_to_mol] returns, every bond has
    the type the loop set for it, and that type is single, double or
    triple. *)
Theorem returned_bonds_single_double_or_triple
    {tables : Const} {tk : Toolkit}
    (xyz : string) (s s' : State) (mol : option loc) :
  unsaturated_xyz_to_mol xyz s = (Ok mol, s') ->
  exists l m,
    mol = Some l /\
    heap s' !! l = Some m /\
    Forall (fun bond => GetBondType bond = SINGLE \/
                        GetBondType bond = DOUBLE \/
                        GetBondType bond = TRIPLE) (GetBonds m).
Proof.
  intros Hrun.
  destruct (unsaturated_xyz_to_mol_bond _ _ _ _ Hrun)
    as (l & m & conformer & -> & Hm & _ & Hbonds).
  exists l, m. split; [reflexivity|]. split; [exact Hm|].
  apply Forall_lookup. intros k bond Hk.
  destruct (Hbonds k bond Hk) as (atom_1 & atom_2 & p1 & p2 & _ & _ & _ & _ & Hc).
  exact (infer_bond_type_range _ _ _ _ Hc).
Qed.

Lemma returned_bonds_single_double_or_triple_witness :
  let out := @unsaturated_xyz_to_mol Sample.tables Sample.toolkit
               Sample.propynal_xyz Sample.empty_state in
  exists l m,
    Some 0%nat = Some l /\
    heap (snd out) !! l = Some m /\
    Forall (fun bond => GetBondType bond = SINGLE \/
                        GetBondType bond = DOUBLE \/
                        GetBondType bond = TRIPLE) (GetBonds m).
Proof.
  apply (@returned_bonds_single_double_or_triple Sample.tables Sample.toolkit
           Sample.propynal_xyz Sample.empty_state).
  vm_compute. reflexivity.
Defined.

(** C1: a bond whose pair of element symbols has a length in both tables
    is typed triple if its distance is below the triple-bond length plus
    [margins[2]], else double if it is below the double-bond length plus
    [margins[1]], else single.  The code tests the double threshold first
    and the triple one inside it; the two orders give the same answer at
    every distance because no triple threshold of the tables lies above
    the double threshold of its pair.  Proved for the classifier at every
    distance, and for every bond of the molecule the function returns. *)
Theorem bond_classified_triple_else_double_else_single
    {tables : Const} {tk : Toolkit} :
  triple_not_above_double ->
  (forall (type_1 type_2 : string) (b2 b3 m1 m2 : Z) (distance : float),
     entry BONDS_2 type_1 type_2 = Some b2 ->
     entry BONDS_3 type_1 type_2 = Some b3 ->
     MARGINS_EDM !! 1%nat = Some m1 ->
     MARGINS_EDM !! 2%nat = Some m2 ->
     infer_bond_type type_1 type_2 distance =
       Ok (if Float64.lt_int distance (b3 + m2) then TRIPLE
           else if Float64.lt_int distance (b2 + m1) then DOUBLE
           else SINGLE)) /\
  forall (xyz : string) (s s' : State) (mol : option loc),
    unsaturated_xyz_to_mol xyz s = (Ok mol, s') ->
    exists l m conformer,
      mol = Some l /\
      heap s' !! l = Some m /\
      GetConformers m !! 0%nat = Some conformer /\
      forall (k : nat) (bond : Bond) (atom_1 atom_2 : Atom)
             (p1 p2 : Point3D) (b2 b3 m1 m2 : Z),
        GetBonds m !! k = Some bond ->
        GetAtoms m !! GetBeginAtomIdx bond = Some atom_1 ->
        GetAtoms m !! GetEndAtomIdx bond = Some atom_2 ->
        conformer !! GetBeginAtomIdx bond = Some p1 ->
        conformer !! GetEndAtomIdx bond = Some p2 ->
        entry BONDS_2 (GetSymbol atom_1) (GetSymbol atom_2) = Some b2 ->
        entry BONDS_3 (GetSymbol atom_1) (GetSymbol atom_2) = Some b3 ->
        MARGINS_EDM !! 1%nat = Some m1 ->
        MARGINS_EDM !! 2%nat = Some m2 ->
        GetBondType bond =
          if Float64.lt_int (bond_distance p1 p2) (b3 + m2) then TRIPLE
          else if Float64.lt_int (bond_distance p1 p2) (b2 + m1) then DOUBLE
          else SINGLE.
Proof.
  intros Hord.
  assert (Hflat :
    forall type_1 type_2 b2 b3 m1 m2 distance,
      entry BONDS_2 type_1 type_2 = Some b2 ->
      entry BONDS_3 type_1 type_2 = Some b3 ->
      MARGINS_EDM !! 1%nat = Some m1 ->
      MARGINS_EDM !! 2%nat = Some m2 ->
      infer_bond_type type_1 type_2 distance =
        Ok (if Float64.lt_int distance (b3 + m2) then TRIPLE
            else if Float64.lt_int distance (b2 + m1) then DOUBLE
            else SINGLE)).
  { intros type_1 type_2 b2 b3 m1 m2 distance H2 H3 Hm1 Hm2.
    apply (infer_bond_type_flat_when_ordered type_1 type_2 distance
             b2 b3 m1 m2 H2 H3 Hm1 Hm2).
    intros Hlt.
    destruct (Hord type_1 type_2 b2 b3 m1 m2 H2 H3 Hm1 Hm2) as [Hle|Heq].
    - unfold Float64.lt_int in *. eapply float_lt_trans; eassumption.
    - rewrite <- Heq. exact Hlt. }
  split; [exact Hflat|].
  intros xyz s s' mol Hrun.
  destruct (unsaturated_xyz_to_mol_bond _ _ _ _ Hrun)
    as (l & m & conformer & -> & Hm & Hconf & Hbonds).
  exists l, m, conformer.
  split; [reflexivity|]. split; [exact Hm|]. split; [exact Hconf|].
  intros k bond atom_1 atom_2 p1 p2 b2 b3 m1 m2
    Hk Ha1 Ha2 Hp1 Hp2 H2 H3 Hm1 Hm2.
  destruct (Hbonds k bond Hk)
    as (atom_1' & atom_2' & p1' & p2' & Ha1' & Ha2' & Hp1' & Hp2' & Hc).
  rewrite Ha1 in Ha1'. injection Ha1' as <-.
  rewrite Ha2 in Ha2'. injection Ha2' as <-.
  rewrite Hp1 in Hp1'. injection Hp1' as <-.
  rewrite Hp2 in Hp2'. injection Hp2' as <-.
  rewrite (Hflat _ _ b2 b3 m1 m2 _ H2 H3 Hm1 Hm2) in Hc.
  injection Hc as <-. reflexivity.
Qed.

(** The sample tables: carbon, nitrogen and oxygen make the six pairs with
    a length in both tables, and each triple threshold is at least ten
    picometers below the double threshold of its pair. *)
Lemma bond_classified_triple_else_double_else_single_witness :
  @triple_not_above_double Sample.tables /\
  (forall (type_1 type_2 : string) (b2 b3 m1 m2 : Z) (distance : float),
     @entry (@BONDS_2 Sample.tables) type_1 type_2 = Some b2 ->
     @entry (@BONDS_3 Sample.tables) type_1 type_2 = Some b3 ->
     @MARGINS_EDM Sample.tables !! 1%nat = Some m1 ->
     @MARGINS_EDM Sample.tables !! 2%nat = Some m2 ->
     @infer_bond_type Sample.tables type_1 type_2 distance =
       Ok (if Float64.lt_int distance (b3 + m2) then TRIPLE
           else if Float64.lt_int distance (b2 + m1) then DOUBLE
           else SINGLE)) /\
  forall (xyz : string) (s s' : State) (mol : option loc),
    @unsaturated_xyz_to_mol Sample.tables Sample.toolkit xyz s
      = (Ok mol, s') ->
    exists l m conformer,
      mol = Some l /\
      heap s' !! l = Some m /\
      GetConformers m !! 0%nat = Some conformer /\
      forall (k : nat) (bond : Bond) (atom_1 atom_2 : Atom)
             (p1 p2 : Point3D) (b2 b3 m1 m2 : Z),
        GetBonds m !! k = Some bond ->
        GetAtoms m !! GetBeginAtomIdx bond = Some atom_1 ->
        GetAtoms m !! GetEndAtomIdx bond = Some atom_2 ->
        conformer !! GetBeginAtomIdx bond = Some p1 ->
        conformer !! GetEndAtomIdx bond = Some p2 ->
        @entry (@BONDS_2 Sample.tables) (GetSymbol atom_1) (GetSymbol atom_2)
          = Some b2 ->
        @entry (@BONDS_3 Sample.tables) (GetSymbol atom_1) (GetSymbol atom_2)
          = Some b3 ->
        @MARGINS_EDM Sample.tables !! 1%nat = Some m1 ->
        @MARGINS_EDM Sample.tables !! 2%nat = Some m2 ->
        GetBondType bond =
          if Float64.lt_int (@bond_distance Sample.toolkit p1 p2) (b3 + m2)
          then TRIPLE
          else if Float64.lt_int (@bond_distance Sample.toolkit p1 p2)
                    (b2 + m1)
               then DOUBLE
               else SINGLE.
Proof.
  assert (Hord : @triple_not_above_double Sample.tables).
  { intros type_1 type_2 b2 b3 m1 m2 H2 H3 [= <-] [= <-].
    unfold entry in H3.
    destruct (BONDS_3 !! type_1) as [row|] eqn:Hrow; [|discriminate].
    unfold BONDS_3, Sample.tables in Hrow.
    repeat (apply lookup_insert_Some in Hrow as [[<- <-]|[_ Hrow]]);
      try (apply lookup_singleton_Some in Hrow as [<- <-]);
      repeat (apply lookup_insert_Some in H3 as [[<- <-]|[_ H3]]);
      try (apply lookup_singleton_Some in H3 as [<- <-]);
      vm_compute in H2; try discriminate H2; injection H2 as <-;
      left; vm_compute; reflexivity. }
  split; [exact Hord|].
  exact (@bond_classified_triple_else_double_else_single
           Sample.tables Sample.toolkit Hord).
Defined.

(** Carbon and nitrogen, double threshold 134 pm and triple threshold
    118 pm: triple below 118, double from there to below 134, single from
    134 on. *)
Example infer_bond_type_carbon_nitrogen :
  @infer_bond_type Sample.tables "C" "N" 117.5 = Ok TRIPLE /\
  @infer_bond_type Sample.tables "C" "N" 118 = Ok DOUBLE /\
  @infer_bond_type Sample.tables "C" "N" 133.5 = Ok DOUBLE /\
  @infer_bond_type Sample.tables "C" "N" 134 = Ok SINGLE.
Proof. vm_compute. repeat split. Qed.



(** The distance on two familiar right triangles, in picometers, and at a
    place where the way of summing shows: with fused steps the distance is
    139 pm and a carbon-carbon bond single, where three separately rounded
    products would give the float just below 139 and a double bond. *)
Example bond_distance_3_4_5 :
  @bond_distance Sample.toolkit (Sample.point 0 0 0) (Sample.point 3 4 0)
  = 500%float.
Proof. vm_compute. reflexivity. Qed.

Example bond_distance_1_2_2 :
  @bond_distance Sample.toolkit (Sample.point 1 1 1) (Sample.point 2 3 3)
  = 300%float.
Proof. vm_compute. reflexivity. Qed.

Example bond_distance_at_the_threshold :
  let p := Sample.point 0x1.89ba5e353f7cfp-1 0x1.c8b4395810625p-2
             0x1.118d39c31d1f4p+0 in
  let o := Sample.point 0 0 0 in
  @bond_distance Sample.toolkit p o = 139%float /\
  @infer_bond_type Sample.tables "C" "C" (@bond_distance Sample.toolkit p o)
    = Ok SINGLE /\
  @infer_bond_type Sample.tables "C" "C"
    (PrimFloat.sqrt (px p * px p + py p * py p + pz p * pz p) * 100)%float
    = Ok DOUBLE.
Proof. vm_compute. repeat split. Qed.

(** C3: a pair of element symbols, begin atom first, without an entry in
    the double-bond table is classified as single at every distance and
    whatever the triple-bond table holds; and so every such bond of the
    molecule [unsaturated_xyz_to_mol] returns is single. *)
Theorem single_without_double_entry {tables : Const} {tk : Toolkit} :
  (forall (type_1 type_2 : string) (distance : float),
     entry BONDS_2 type_1 type_2 = None ->
     infer_bond_type type_1 type_2 distance = Ok SINGLE) /\
  (forall (xyz : string) (s s' : State) (mol : option loc),
     unsaturated_xyz_to_mol xyz s = (Ok mol, s') ->
     exists l m,
       mol = Some l /\
       heap s' !! l = Some m /\
       forall (k : nat) (bond : Bond) (atom_1 atom_2 : Atom),
         GetBonds m !! k = Some bond ->
         GetAtoms m !! GetBeginAtomIdx bond = Some atom_1 ->
         GetAtoms m !! GetEndAtomIdx bond = Some atom_2 ->
         entry BONDS_2 (GetSymbol atom_1) (GetSymbol atom_2) = None ->
         GetBondType bond = SINGLE).
Proof.
  assert (Hsingle : forall type_1 type_2 distance,
             entry BONDS_2 type_1 type_2 = None ->
             infer_bond_type type_1 type_2 distance = Ok SINGLE).
  { intros type_1 type_2 distance Hnone. unfold infer_bond_type.
    rewrite Hnone. reflexivity. }
  split; [exact Hsingle|].
  intros xyz s s' mol Hrun.
  destruct (unsaturated_xyz_to_mol_bond _ _ _ _ Hrun)
    as (l & m & conformer & -> & Hm & _ & Hbonds).
  exists l, m. split; [reflexivity|]. split; [exact Hm|].
  intros k bond atom_1 atom_2 Hk Ha1 Ha2 Hnone.
  destruct (Hbonds k bond Hk)
    as (atom_1' & atom_2' & p1 & p2 & Ha1' & Ha2' & _ & _ & Hc).
  rewrite Ha1 in Ha1'. injection Ha1' as <-.
  rewrite Ha2 in Ha2'. injection Ha2' as <-.
  rewrite (Hsingle _ _ _ Hnone) in Hc. injection Hc as <-. reflexivity.
Qed.

(** Two phosphorus atoms at 175 pm: the sample tables have a triple-bond
    length for the pair (180 pm, above the distance) and no double-bond
    length, and the bond stays single. *)
Lemma single_without_double_entry_witness :
  @entry (@BONDS_3 Sample.tables) "P" "P" = Some 180 /\
  @infer_bond_type Sample.tables "P" "P" 175 = Ok SINGLE /\
  let out := @unsaturated_xyz_to_mol Sample.tables Sample.toolkit
               Sample.diphosphorus_xyz Sample.empty_state in
  exists l m,
    Some 0%nat = Some l /\
    heap (snd out) !! l = Some m /\
    forall (k : nat) (bond : Bond) (atom_1 atom_2 : Atom),
      GetBonds m !! k = Some bond ->
      GetAtoms m !! GetBeginAtomIdx bond = Some atom_1 ->
      GetAtoms m !! GetEndAtomIdx bond = Some atom_2 ->
      @entry (@BONDS_2 Sample.tables) (GetSymbol atom_1) (GetSymbol atom_2)
        = None ->
      GetBondType bond = SINGLE.
Proof.
  split; [reflexivity|]. split.
  - apply (proj1 (@single_without_double_entry Sample.tables Sample.toolkit)).
    reflexivity.
  - apply (proj2 (@single_without_double_entry Sample.tables Sample.toolkit)
             Sample.diphosphorus_xyz Sample.empty_state).
    vm_compute. reflexivity.
Defined.

(** C2: no hydrogen is added to the molecule [unsaturated_xyz_to_mol]
    returns.  [Chem.AddHs] leaves its argument as it is and returns a new
    molecule, and line 103 drops that result.  So the object returned is
    the one [AddHs] was given, with the atoms and the conformers
    [DetermineConnectivity] left in it; the molecule [AddHs] built is
    another object, allocated last, which nothing refers to; and [AddHs]
    is the last toolkit call made. *)
Theorem unsaturated_xyz_to_mol_returns_argument_of_AddHs
    {tables : Const} {tk : Toolkit}
    (xyz : string) (s s' : State) (mol : option loc) :
  unsaturated_xyz_to_mol xyz s = (Ok mol, s') ->
  exists l m0 m1 m mh,
    mol = Some l /\
    rdkit_MolFromXYZBlock xyz = Ok (Some m0) /\
    rdkit_DetermineConnectivity m0 = Ok m1 /\
    heap s' !! l = Some m /\
    GetAtoms m = GetAtoms m1 /\
    GetConformers m = GetConformers m1 /\
    rdkit_AddHs true true m = Ok mh /\
    heap s' = heap s ++ [m; mh] /\
    l = length (heap s) /\
    last (trace s') = Some (Called fn_AddHs).
Proof.
  intros Hrun. apply unsaturated_xyz_to_mol_Ok in Hrun
    as (m0 & m1 & conformer & bonds' & cache & mh
        & E0 & E1 & _ & _ & _ & E5 & -> & ->).
  exists (length (heap s)), m0, m1,
    (with_property_cache (with_bonds m1 bonds') cache), mh.
  cbn [heap trace].
  split; [reflexivity|]. split; [exact E0|]. split; [exact E1|].
  split; [apply list_lookup_middle; reflexivity|].
  split; [reflexivity|]. split; [reflexivity|]. split; [exact E5|].
  split; [reflexivity|]. split; [reflexivity|].
  rewrite last_app. reflexivity.
Qed.

(** The heavy atoms of propynal, HC#C-CH=O: the molecule returned is
    object 0 with the four atoms of the XYZ block, the bonds retyped, and
    without the two hydrogens its valences leave room for. *)
Lemma unsaturated_xyz_to_mol_returns_argument_of_AddHs_witness :
  let out := @unsaturated_xyz_to_mol Sample.tables Sample.toolkit
               Sample.propynal_xyz Sample.empty_state in
  exists l m0 m1 m mh,
    Some 0%nat = Some l /\
    @rdkit_MolFromXYZBlock Sample.toolkit Sample.propynal_xyz
      = Ok (Some m0) /\
    @rdkit_DetermineConnectivity Sample.toolkit m0 = Ok m1 /\
    heap (snd out) !! l = Some m /\
    GetAtoms m = GetAtoms m1 /\
    GetConformers m = GetConformers m1 /\
    @rdkit_AddHs Sample.toolkit true true m = Ok mh /\
    heap (snd out) = heap Sample.empty_state ++ [m; mh] /\
    l = length (heap Sample.empty_state) /\
    last (trace (snd out)) = Some (Called fn_AddHs).
Proof.
  apply (@unsaturated_xyz_to_mol_returns_argument_of_AddHs
           Sample.tables Sample.toolkit
           Sample.propynal_xyz Sample.empty_state).
  vm_compute. reflexivity.
Defined.

Example unsaturated_xyz_to_mol_propynal :
  let out := @unsaturated_xyz_to_mol Sample.tables Sample.toolkit
               Sample.propynal_xyz Sample.empty_state in
  fst out = Ok (Some 0%nat) /\
  ((fun m => GetSymbol <$> GetAtoms m) <$> heap (snd out) !! 0%nat)
    = Some ["C"; "C"; "C"; "O"] /\
  ((fun m => GetBondType <$> GetBonds m) <$> heap (snd out) !! 0%nat)
    = Some [TRIPLE; SINGLE; DOUBLE] /\
  (property_cache <$> heap (snd out) !! 0%nat)
    = Some (Some [3; 4; 3; 2]%nat) /\
  trace (snd out) = [ Called fn_MolFromXYZBlock;
                      Called fn_DetermineConnectivity;
                      Called fn_UpdatePropertyCache;
                      Called fn_AddHs ].
Proof. vm_compute. repeat split. Qed.

(** ** [smiles_to_xyz] and [xyz_to_smiles] *)

(** C5: [smiles_to_xyz] calls the toolkit in this order: parse the SMILES,
    add hydrogens, embed, optimize, write the XYZ block.  The calls it has
    made are always the first [n] of these five, each on the result of the
    one before; it returns exactly when all five go through, and it returns
    the text the last one wrote. *)
Theorem smiles_to_xyz_call_sequence {tk : Toolkit}
    (smiles : string) (s : State) :
  (exists n : nat,
     filter (fun e => e <> LockAcquire /\ e <> LockRelease)
       (events_of (smiles_to_xyz smiles) s)
     = Called <$> take n smiles_to_xyz_calls) /\
  (forall xyz : string,
     fst (smiles_to_xyz smiles s) = Ok xyz <->
     exists m0 m1 r2 r3,
       rdkit_MolFromSmiles smiles = Ok (Some m0) /\
       rdkit_AddHs false false m0 = Ok m1 /\
       rdkit_EmbedMolecule 1 m1 = Ok r2 /\
       rdkit_MMFFOptimizeMolecule (fst r2) = Ok r3 /\
       rdkit_MolToXYZBlock (fst r3) = Ok xyz) /\
  (forall xyz : string,
     fst (smiles_to_xyz smiles s) = Ok xyz ->
     filter (fun e => e <> LockAcquire /\ e <> LockRelease)
       (events_of (smiles_to_xyz smiles) s)
     = [ Called fn_MolFromSmiles; Called fn_AddHs; Called fn_EmbedMolecule;
         Called fn_MMFFOptimizeMolecule; Called fn_MolToXYZBlock ]).
Proof.
  destruct (smiles_to_xyz_events smiles s) as (n & Hev & Hn).
  assert (Hcalls :
    filter (fun e => e <> LockAcquire /\ e <> LockRelease)
      (events_of (smiles_to_xyz smiles) s)
    = Called <$> take n smiles_to_xyz_calls).
  { rewrite Hev. clear.
    do 6 (destruct n as [|n]; [reflexivity|]). reflexivity. }
  split; [exists n; exact Hcalls|]. split.
  - intros xyz. rewrite smiles_to_xyz_run. cbn zeta.
    destruct (rdkit_MolFromSmiles smiles) as [[m0|]|e] eqn:E0;
      [| split; [discriminate | intros (?&?&?&?&?&_); clash] ..].
    destruct (rdkit_AddHs false false m0) as [m1|e] eqn:E1;
      [| split; [discriminate | intros (?&?&?&?&?&?&_); clash]].
    destruct (rdkit_EmbedMolecule 1 m1) as [r2|e] eqn:E2;
      [| split; [discriminate | intros (?&?&?&?&?&?&?&_); clash]].
    destruct (rdkit_MMFFOptimizeMolecule (fst r2)) as [r3|e] eqn:E3;
      [| split; [discriminate | intros (?&?&?&?&?&?&?&?&_); clash]].
    simpl. split.
    + intros Hxyz. exists m0, m1, r2, r3. auto.
    + intros (m0' & m1' & r2' & r3' & [= <-] & E1' & E2' & E3' & Hxyz).
      rewrite E1 in E1'. injection E1' as <-.
      rewrite E2 in E2'. injection E2' as <-.
      rewrite E3 in E3'. injection E3' as <-. exact Hxyz.
  - intros xyz Hxyz. rewrite Hcalls, Hn; [reflexivity|].
    rewrite Hxyz. exact I.
Qed.

(** On the sample toolkit the five calls go through for hydrogen cyanide,
    and stop after the second for text the parser rejects. *)
Example smiles_to_xyz_sample_run :
  @smiles_to_xyz Sample.toolkit "C#N" Sample.empty_state
  = (Ok "CNH",
     {| heap := [ Sample.hydrogen_cyanide;
                  fst (Sample.embed 1 (Sample.add_hs false
                                         Sample.hydrogen_cyanide)) ];
        trace := [ LockAcquire; Called fn_MolFromSmiles; Called fn_AddHs;
                   Called fn_EmbedMolecule; Called fn_MMFFOptimizeMolecule;
                   Called fn_MolToXYZBlock; LockRelease ];
        entropy := 0 |}).
Proof. vm_compute. reflexivity. Qed.

Example smiles_to_xyz_sample_rejected :
  @smiles_to_xyz Sample.toolkit "not a molecule" Sample.empty_state
  = (Raise ArgumentError,
     {| heap := [];
        trace := [ LockAcquire; Called fn_MolFromSmiles; Called fn_AddHs;
                   LockRelease ];
        entropy := 0 |}).
Proof. vm_compute. reflexivity. Qed.

(** C6: [xyz_to_smiles] is [xyz_to_mol] followed by the canonical-SMILES
    writer.  When [xyz_to_mol] returns, it returns a reference to a
    molecule, and [xyz_to_smiles] gives what [MolToSmiles] makes of that
    molecule, after this one further call; when [xyz_to_mol] raises,
    [xyz_to_smiles] raises the same exception in the same state. *)
Theorem xyz_to_smiles_composes {tk : Toolkit} (xyz : string) (s : State) :
  match xyz_to_mol xyz s with
  | (Ok mol, s1) =>
      exists l m,
        mol = Some l /\
        heap s1 !! l = Some m /\
        xyz_to_smiles xyz s
        = (rdkit_MolToSmiles m, record (Called fn_MolToSmiles) s1)
  | (Raise e, s1) => xyz_to_smiles xyz s = (Raise e, s1)
  end.
Proof.
  unfold xyz_to_smiles, bind.
  destruct (xyz_to_mol xyz s) as [[mol|e] s1] eqn:Hmol; [|reflexivity].
  destruct (xyz_to_mol_returns_object _ _ _ _ Hmol) as (l & m & -> & Hm).
  exists l, m. split; [reflexivity|]. split; [exact Hm|].
  apply MolToSmiles_run. exact Hm.
Qed.

Example xyz_to_smiles_sample_run :
  fst (@xyz_to_smiles Sample.toolkit Sample.propynal_xyz Sample.empty_state)
  = Ok "CCCO".
Proof. vm_compute. reflexivity. Qed.

(** C10: the text [smiles_to_xyz] returns, or the exception it raises,
    depends on the SMILES string alone: not on the objects made before,
    not on the calls made before, and, the seed being 1, not on the
    unseeded random source. *)
Theorem smiles_to_xyz_deterministic {tk : Toolkit}
    (smiles : string) (s1 s2 : State) :
  fst (smiles_to_xyz smiles s1) = fst (smiles_to_xyz smiles s2).
Proof.
  rewrite !smiles_to_xyz_run. cbn zeta.
  destruct (rdkit_MolFromSmiles smiles) as [[m0|]|e]; try reflexivity.
  destruct (rdkit_AddHs false false m0) as [m1|e]; [|reflexivity].
  destruct (rdkit_EmbedMolecule 1 m1) as [r2|e]; [|reflexivity].
  destruct (rdkit_MMFFOptimizeMolecule (fst r2)) as [r3|e]; reflexivity.
Qed.

Example smiles_to_xyz_same_text_in_busy_process :
  fst (@smiles_to_xyz Sample.toolkit "C#N" Sample.busy_state)
  = fst (@smiles_to_xyz Sample.toolkit "C#N" Sample.empty_state).
Proof. vm_compute. reflexivity. Qed.

(** The seed matters: without one ([randomSeed = -1]) the same call gives
    different conformers in processes whose random sources differ. *)
Example EmbedMolecule_unseeded_differs :
  let embedded (s : State) :=
    GetConformers <$>
      heap (snd (@AllChem.EmbedMolecule Sample.toolkit (Some 0%nat) (-1) s))
        !! 0%nat in
  embedded Sample.busy_state
  <> embedded {| heap := heap Sample.busy_state;
                 trace := trace Sample.busy_state;
                 entropy := 7 |}.
Proof. vm_compute. discriminate. Qed.

Example EmbedMolecule_seeded_agrees :
  let embedded (s : State) :=
    GetConformers <$>
      heap (snd (@AllChem.EmbedMolecule Sample.toolkit (Some 0%nat) 1 s))
        !! 0%nat in
  embedded Sample.busy_state
  = embedded {| heap := heap Sample.busy_state;
                trace := trace Sample.busy_state;
                entropy := 7 |}.
Proof. vm_compute. reflexivity. Qed.

(** ** Concurrent invocations *)

Module ThreadsFacts.
Import Threads.

Lemma in_body_inside (script : list Event) :
  in_body script -> inside script = true.
Proof. intros [[|f calls] ->]; reflexivity. Qed.

Lemma running_inside (f : fn) (script : list Event) :
  running f script = true -> inside script = true.
Proof. destruct script as [|[| |g] rest]; simpl; congruence. Qed.

Lemma count_insert (p : list Event -> bool) (scripts : list (list Event))
    (t : nat) (old new : list Event) :
  scripts !! t = Some old ->
  (length (filter (fun sc => p sc = true) (<[t := new]> scripts))
   + (if p old then 1 else 0)
   = length (filter (fun sc => p sc = true) scripts)
     + (if p new then 1 else 0))%nat.
Proof.
  revert t. induction scripts as [|sc scripts IH]; intros t Ht.
  - rewrite lookup_nil in Ht. discriminate.
  - destruct t as [|t]; simpl in Ht |- *.
    + injection Ht as ->. rewrite !filter_cons.
      destruct (p old), (p new); repeat case_decide;
        simpl; try congruence; lia.
    + specialize (IH t Ht). rewrite !filter_cons.
      case_decide; simpl; lia.
Qed.

Lemma count_le (p q : list Event -> bool) (scripts : list (list Event)) :
  (forall sc, p sc = true -> q sc = true) ->
  (length (filter (fun sc => p sc = true) scripts)
   <= length (filter (fun sc => q sc = true) scripts))%nat.
Proof.
  intros Hpq. induction scripts as [|sc scripts IH]; [reflexivity|].
  rewrite !filter_cons. repeat case_decide; simpl; try lia.
  exfalso. auto.
Qed.

Lemma invariant_initial (scripts : list (list Event)) :
  Forall (fun sc => exists rest, sc = LockAcquire :: rest /\ in_body rest)
    scripts ->
  invariant (initial scripts).
Proof.
  intros Hs. split.
  - simpl. eapply Forall_impl; [exact Hs|]. intros sc H. right. right. exact H.
  - unfold count. simpl. induction Hs as [|sc scripts (rest & -> & _) _ IH].
    + reflexivity.
    + rewrite filter_cons. case_decide; [discriminate|]. exact IH.
Qed.

Lemma invariant_advance (t : nat) (cfg : Config) :
  invariant cfg -> invariant (advance t cfg).
Proof.
  intros [Hwf Hcount]. unfold advance.
  destruct (pending cfg !! t) as [script|] eqn:Ht; [|split; assumption].
  pose proof (Forall_lookup_1 _ _ _ _ Hwf Ht) as Hscript.
  unfold count in *.
  destruct script as [|[| |f] rest]; [split; assumption| | |].
  - (* waiting at the lock *)
    destruct (_generate_lock cfg) eqn:Hlock; [split; [assumption|] |].
    { rewrite Hlock. exact Hcount. }
    destruct Hscript as [Hnil|[[[|g calls] Hbody]|(rest' & Heq & Hbody)]];
      try discriminate.
    injection Heq as <-. split; unfold count; cbn [pending _generate_lock].
    + apply Forall_insert; [assumption|]. right. left. exact Hbody.
    + pose proof (count_insert inside _ _ _ rest Ht) as Hc.
      rewrite (in_body_inside _ Hbody) in Hc. simpl in Hc. lia.
  - (* leaving the block *)
    destruct Hscript as [Hnil|[[[|g calls] Hbody]|(rest' & Heq & _)]];
      try discriminate.
    injection Hbody as ->. split; unfold count; cbn [pending _generate_lock].
    + apply Forall_insert; [assumption|]. left. reflexivity.
    + pose proof (count_insert inside _ _ _ [] Ht) as Hc.
      simpl in Hc. destruct (_generate_lock cfg); lia.
  - (* a toolkit call returns *)
    destruct Hscript as [Hnil|[[[|g calls] Hbody]|(rest' & Heq & _)]];
      try discriminate.
    injection Hbody as -> ->.
    assert (Hrest : in_body ((Called <$> calls) ++ [LockRelease]))
      by (exists calls; reflexivity).
    split; unfold count; cbn [pending _generate_lock].
    + apply Forall_insert; [assumption|]. right. left. exact Hrest.
    + pose proof (count_insert inside _ _ _
                    ((Called <$> calls) ++ [LockRelease]) Ht) as Hc.
      rewrite (in_body_inside _ Hrest) in Hc. simpl in Hc.
      change (list_fmap fn Event Called calls) with (Called <$> calls).
      lia.
Qed.

Lemma invariant_run (schedule : list nat) :
  forall cfg, invariant cfg -> invariant (run schedule cfg).
Proof.
  induction schedule as [|t schedule IH]; intros cfg Hinv; [exact Hinv|].
  apply (IH (advance t cfg)). apply invariant_advance. exact Hinv.
Qed.

End ThreadsFacts.

(** C7: every toolkit call of [smiles_to_xyz] lies between taking and
    releasing [_generate_lock]; so, however the invocations running in one
    process are interleaved, the lock is held exactly when one of them is
    inside the block, at most one is inside, and at most one is running the
    embedding. *)
Theorem generate_lock_mutual_exclusion {tk : Toolkit}
    (invocations : list (string * State)) (schedule : list nat) :
  let scripts :=
    (fun inv => events_of (smiles_to_xyz (fst inv)) (snd inv))
      <$> invocations in
  Forall (fun script =>
            exists calls : list fn,
              script = LockAcquire :: (Called <$> calls) ++ [LockRelease])
    scripts /\
  let cfg := Threads.run schedule (Threads.initial scripts) in
  Threads.count Threads.inside cfg
    = (if Threads._generate_lock cfg then 1 else 0)%nat /\
  (Threads.count Threads.inside cfg <= 1)%nat /\
  (Threads.count (Threads.running fn_EmbedMolecule) cfg <= 1)%nat.
Proof.
  cbn zeta.
  assert (Hscripts :
    Forall (fun script =>
              exists calls : list fn,
                script = LockAcquire :: (Called <$> calls) ++ [LockRelease])
      ((fun inv => events_of (smiles_to_xyz (fst inv)) (snd inv))
         <$> invocations)).
  { apply Forall_fmap, Forall_forall. intros [smiles s] _. simpl.
    destruct (smiles_to_xyz_events smiles s) as (n & Hev & _).
    exists (take n smiles_to_xyz_calls). exact Hev. }
  split; [exact Hscripts|].
  destruct (ThreadsFacts.invariant_run schedule (Threads.initial _)
              (ThreadsFacts.invariant_initial _
                 (Forall_impl _ _ _ Hscripts
                    (fun sc '(ex_intro _ calls Hsc) =>
                       ex_intro _ _ (conj Hsc (ex_intro _ calls eq_refl))))))
    as [_ Hcount].
  split; [exact Hcount|].
  assert (Hle : (Threads.count Threads.inside
                   (Threads.run schedule (Threads.initial
                      ((fun inv => events_of (smiles_to_xyz (fst inv))
                                     (snd inv)) <$> invocations))) <= 1)%nat).
  { rewrite Hcount. destruct (Threads._generate_lock _); lia. }
  split; [exact Hle|].
  etransitivity; [|exact Hle].
  apply ThreadsFacts.count_le. apply ThreadsFacts.running_inside.
Qed.

(** Two invocations on the sample toolkit.  While the first is embedding,
    the second waits at the lock, however often it is scheduled; run to the
    end, both finish and the lock is free. *)
Example two_invocations_one_embedding :
  let script := events_of (@smiles_to_xyz Sample.toolkit "C#N")
                  Sample.empty_state in
  Threads.run [0; 1; 0; 1; 0; 1]%nat (Threads.initial [script; script])
  = {| Threads._generate_lock := true;
       Threads.pending :=
         [ [ Called fn_EmbedMolecule; Called fn_MMFFOptimizeMolecule;
             Called fn_MolToXYZBlock; LockRelease ];
           [ LockAcquire; Called fn_MolFromSmiles; Called fn_AddHs;
             Called fn_EmbedMolecule; Called fn_MMFFOptimizeMolecule;
             Called fn_MolToXYZBlock; LockRelease ] ] |}.
Proof. vm_compute. reflexivity. Qed.

Example two_invocations_finish :
  let script := events_of (@smiles_to_xyz Sample.toolkit "C#N")
                  Sample.empty_state in
  Threads.run (replicate 7 0 ++ replicate 7 1)%nat
    (Threads.initial [script; script])
  = {| Threads._generate_lock := false; Threads.pending := [ []; [] ] |}.
Proof. vm_compute. reflexivity. Qed.

(** * Further properties *)

(** ** More on the classifier *)

(** X1: when the margin-adjusted triple threshold is, as a binary64 number,
    below or equal to the margin-adjusted double threshold, the code and
    the flat chain (triple test first, then double, else single) agree at
    every distance, not-a-number and the infinities included. *)
Theorem flat_chain_when_thresholds_ordered `{Const}
    (type_1 type_2 : string) (b2 b3 m1 m2 : Z) :
  entry BONDS_2 type_1 type_2 = Some b2 ->
  entry BONDS_3 type_1 type_2 = Some b3 ->
  MARGINS_EDM !! 1%nat = Some m1 ->
  MARGINS_EDM !! 2%nat = Some m2 ->
  Float64.lt_int (Float64.of_Z (b3 + m2)) (b2 + m1) = true \/
    b3 + m2 = b2 + m1 ->
  forall distance : float,
    infer_bond_type type_1 type_2 distance =
      Ok (infer_bond_type_spec b2 m1 b3 m2 distance).
Proof.
  intros H2 H3 Hm1 Hm2 Hord distance.
  apply infer_bond_type_flat_when_ordered; try assumption.
  intros Hlt. destruct Hord as [Hord| <-]; [|exact Hlt].
  unfold Float64.lt_int in *. eapply float_lt_trans; eassumption.
Qed.

Lemma flat_chain_when_thresholds_ordered_witness :
  @infer_bond_type Sample.tables "C" "C" 121.5 =
    Ok (infer_bond_type_spec 134 5 120 2 121.5).
Proof.
  apply (@flat_chain_when_thresholds_ordered Sample.tables "C" "C"
           134 120 5 2); try reflexivity.
  left. vm_compute. reflexivity.
Defined.

(** X2: where the thresholds of a pair are integers binary64 holds
    exactly (up to 2^53 in absolute value, as any length in picometers
    is), so that comparing the distance with them cannot overflow, the
    classifier raises nothing but [IndexError], and it raises it exactly
    when a margin it needs is missing: [margins[1]] for a pair with a
    double-bond length, [margins[2]] for a pair with lengths in both
    tables at a distance below the double threshold.  With three margins
    or more it always returns. *)
Theorem infer_bond_type_raises_iff `{Const}
    (type_1 type_2 : string) (distance : float) :
  (forall b2 m1 : Z,
     entry BONDS_2 type_1 type_2 = Some b2 ->
     MARGINS_EDM !! 1%nat = Some m1 -> Float64.exact (b2 + m1)) ->
  (forall b3 m2 : Z,
     entry BONDS_3 type_1 type_2 = Some b3 ->
     MARGINS_EDM !! 2%nat = Some m2 -> Float64.exact (b3 + m2)) ->
  (forall e : exn,
     infer_bond_type type_1 type_2 distance = Raise e <->
     e = IndexError /\
     ((exists b2, entry BONDS_2 type_1 type_2 = Some b2 /\
                  MARGINS_EDM !! 1%nat = None) \/
      (exists b2 m1 b3,
         entry BONDS_2 type_1 type_2 = Some b2 /\
         MARGINS_EDM !! 1%nat = Some m1 /\
         Float64.lt_int distance (b2 + m1) = true /\
         entry BONDS_3 type_1 type_2 = Some b3 /\
         MARGINS_EDM !! 2%nat = None))) /\
  ((3 <= length MARGINS_EDM)%nat ->
   is_Ok (infer_bond_type type_1 type_2 distance)).
Proof.
  intros _ _. unfold infer_bond_type, getitem. split.
  - intros e.
    destruct (entry BONDS_2 type_1 type_2) as [b2|] eqn:E2.
    2:{ split; [discriminate|].
        intros (_ & [(?&?&_)|(?&?&?&?&_)]); discriminate. }
    destruct (MARGINS_EDM !! 1%nat) as [m1|] eqn:Em1; simpl.
    2:{ split.
        - intros [= <-]. split; [reflexivity|]. left. eauto.
        - intros [-> _]. reflexivity. }
    destruct (Float64.lt_int distance (b2 + m1)) eqn:Hlt2.
    2:{ split; [discriminate|].
        intros (_ & [(?&?&?)|(?&?&?&?&?&?&_)]); try discriminate.
        congruence. }
    destruct (entry BONDS_3 type_1 type_2) as [b3|] eqn:E3.
    2:{ split; [discriminate|].
        intros (_ & [(?&?&?)|(?&?&?&?&?&?&?&_)]); discriminate. }
    destruct (MARGINS_EDM !! 2%nat) as [m2|] eqn:Em2; simpl.
    + split.
      * destruct (Float64.lt_int distance (b3 + m2)); discriminate.
      * intros (_ & [(?&?&?)|(?&?&?&?&?&?&?&?)]); discriminate.
    + split.
      * intros [= <-]. split; [reflexivity|]. right.
        exists b2, m1, b3. auto.
      * intros [-> _]. reflexivity.
  - intros Hlen.
    destruct (lookup_lt_is_Some_2 MARGINS_EDM 1%nat) as [m1 ->]; [lia|].
    destruct (lookup_lt_is_Some_2 MARGINS_EDM 2%nat) as [m2 ->]; [lia|].
    destruct (entry BONDS_2 type_1 type_2); simpl; [|exact I].
    destruct (Float64.lt_int distance _); [|exact I].
    destruct (entry BONDS_3 type_1 type_2); simpl; [|exact I].
    destruct (Float64.lt_int distance _); exact I.
Qed.

Lemma infer_bond_type_raises_iff_witness :
  (forall e : exn,
     @infer_bond_type Sample.tables "C" "C" 119 = Raise e <->
     e = IndexError /\
     ((exists b2, @entry (@BONDS_2 Sample.tables) "C" "C" = Some b2 /\
                  @MARGINS_EDM Sample.tables !! 1%nat = None) \/
      (exists b2 m1 b3,
         @entry (@BONDS_2 Sample.tables) "C" "C" = Some b2 /\
         @MARGINS_EDM Sample.tables !! 1%nat = Some m1 /\
         Float64.lt_int 119 (b2 + m1) = true /\
         @entry (@BONDS_3 Sample.tables) "C" "C" = Some b3 /\
         @MARGINS_EDM Sample.tables !! 2%nat = None))) /\
  ((3 <= length (@MARGINS_EDM Sample.tables))%nat ->
   is_Ok (@infer_bond_type Sample.tables "C" "C" 119)).
Proof.
  apply (@infer_bond_type_raises_iff Sample.tables "C" "C" 119).
  - intros b2 m1 H2 Hm1. vm_compute in H2, Hm1.
    injection H2 as <-. injection Hm1 as <-.
    unfold Float64.exact. vm_compute. discriminate.
  - intros b3 m2 H3 Hm2. vm_compute in H3, Hm2.
    injection H3 as <-. injection Hm2 as <-.
    unfold Float64.exact. vm_compute. discriminate.
Defined.

(** With two margins only: a carbon-carbon distance below the double
    threshold needs the third margin, a longer one does not. *)
Example infer_bond_type_short_margins :
  @infer_bond_type Edge.short_margins "C" "C" 130 = Raise IndexError /\
  @infer_bond_type Edge.short_margins "C" "C" 150 = Ok SINGLE /\
  @infer_bond_type Edge.short_margins "N" "O" 120 = Ok DOUBLE.
Proof. vm_compute. repeat split. Qed.

(** X3: a distance that is not a number, or is infinite, is below no
    threshold: the classifier answers single for it (or raises
    [IndexError] for want of [margins[1]]), never double or triple. *)
Theorem unordered_distance_is_single `{Const}
    (type_1 type_2 : string) (distance : float) :
  distance = nan \/ distance = infinity ->
  infer_bond_type type_1 type_2 distance = Ok SINGLE \/
  infer_bond_type type_1 type_2 distance = Raise IndexError.
Proof.
  intros Hd. unfold infer_bond_type, getitem.
  destruct (entry BONDS_2 type_1 type_2) as [b2|]; [|left; reflexivity].
  destruct (MARGINS_EDM !! 1%nat) as [m1|]; simpl; [|right; reflexivity].
  assert (Hlt : Float64.lt_int distance (b2 + m1) = false).
  { unfold Float64.lt_int.
    destruct Hd as [-> | ->]; [apply float_nan_lt|apply float_infinity_lt]. }
  rewrite Hlt. left. reflexivity.
Qed.

Lemma unordered_distance_is_single_witness :
  @infer_bond_type Sample.tables "C" "C" nan = Ok SINGLE \/
  @infer_bond_type Sample.tables "C" "C" nan = Raise IndexError.
Proof.
  exact (@unordered_distance_is_single Sample.tables "C" "C" nan
           (or_introl eq_refl)).
Defined.

(** X4: the comparisons are strict.  At a distance equal to the
    margin-adjusted double threshold the bond is single; at a distance
    equal to the margin-adjusted triple threshold and below the double one
    it is double. *)
Theorem distance_at_threshold_is_not_below `{Const}
    (type_1 type_2 : string) (b2 m1 : Z) :
  entry BONDS_2 type_1 type_2 = Some b2 ->
  MARGINS_EDM !! 1%nat = Some m1 ->
  infer_bond_type type_1 type_2 (Float64.of_Z (b2 + m1)) = Ok SINGLE /\
  forall b3 m2 : Z,
    entry BONDS_3 type_1 type_2 = Some b3 ->
    MARGINS_EDM !! 2%nat = Some m2 ->
    Float64.lt_int (Float64.of_Z (b3 + m2)) (b2 + m1) = true ->
    infer_bond_type type_1 type_2 (Float64.of_Z (b3 + m2)) = Ok DOUBLE.
Proof.
  intros H2 Hm1. unfold infer_bond_type, getitem, Float64.lt_int.
  rewrite H2, Hm1. simpl. rewrite float_lt_irrefl. split; [reflexivity|].
  intros b3 m2 H3 Hm2 Hlt. rewrite H3, Hm2, Hlt. simpl.
  rewrite float_lt_irrefl. reflexivity.
Qed.

Lemma distance_at_threshold_is_not_below_witness :
  @infer_bond_type Sample.tables "C" "C" (Float64.of_Z (134 + 5))
    = Ok SINGLE /\
  @infer_bond_type Sample.tables "C" "C" (Float64.of_Z (120 + 2))
    = Ok DOUBLE.
Proof.
  destruct (@distance_at_threshold_is_not_below Sample.tables "C" "C" 134 5
              eq_refl eq_refl) as [Hsingle Hdouble].
  split; [exact Hsingle|].
  apply (Hdouble 120 2); reflexivity.
Defined.

(** X5: the classifier answers double exactly for a pair with a
    double-bond length, at a distance below the double threshold, that has
    no triple-bond length or is not below the triple threshold. *)
Theorem double_iff `{Const} (type_1 type_2 : string) (distance : float) :
  infer_bond_type type_1 type_2 distance = Ok DOUBLE <->
  exists b2 m1 : Z,
    entry BONDS_2 type_1 type_2 = Some b2 /\
    MARGINS_EDM !! 1%nat = Some m1 /\
    Float64.lt_int distance (b2 + m1) = true /\
    (entry BONDS_3 type_1 type_2 = None \/
     exists b3 m2 : Z,
       entry BONDS_3 type_1 type_2 = Some b3 /\
       MARGINS_EDM !! 2%nat = Some m2 /\
       Float64.lt_int distance (b3 + m2) = false).
Proof.
  unfold infer_bond_type, getitem.
  destruct (entry BONDS_2 type_1 type_2) as [b2|] eqn:E2.
  2:{ split; [discriminate|]. intros (?&?&?&_). discriminate. }
  destruct (MARGINS_EDM !! 1%nat) as [m1|] eqn:Em1; simpl.
  2:{ split; [discriminate|]. intros (?&?&?&?&_). discriminate. }
  destruct (Float64.lt_int distance (b2 + m1)) eqn:Hlt2.
  2:{ split; [discriminate|]. intros (?&?&[= <-]&[= <-]&?&_). congruence. }
  destruct (entry BONDS_3 type_1 type_2) as [b3|] eqn:E3.
  2:{ split; [|reflexivity]. intros _. exists b2, m1. auto. }
  destruct (MARGINS_EDM !! 2%nat) as [m2|] eqn:Em2; simpl.
  2:{ split; [discriminate|].
      intros (?&?&_&_&_&[?|(?&?&?&?&_)]); discriminate. }
  destruct (Float64.lt_int distance (b3 + m2)) eqn:Hlt3.
  - split; [discriminate|].
    intros (?&?&_&_&_&[?|(?&?&[= <-]&[= <-]&?)]); [discriminate|congruence].
  - split; [|reflexivity]. intros _. exists b2, m1.
    repeat (split; [first [reflexivity | assumption]|]).
    right. exists b3, m2. auto.
Qed.

(** ** The functions, outcome by outcome *)

Section Outcomes.
Context {tables : Const} {tk : Toolkit}.

(** The whole of [xyz_to_mol]. *)
Lemma xyz_to_mol_run (xyz : string) (s : State) :
  xyz_to_mol xyz s =
    let l := length (heap s) in
    let s1 := record (Called fn_MolFromXYZBlock) s in
    match rdkit_MolFromXYZBlock xyz with
    | Raise e => (Raise e, s1)
    | Ok None =>
        (Raise ArgumentError, record (Called fn_DetermineConnectivity) s1)
    | Ok (Some m0) =>
        let s2 := record (Called fn_DetermineConnectivity) (push m0 s1) in
        match rdkit_DetermineConnectivity m0 with
        | Raise e => (Raise e, s2)
        | Ok m1 =>
            let s3 := record (Called fn_DetermineBondOrders) (put l m1 s2) in
            match rdkit_DetermineBondOrders m1 with
            | Raise e => (Raise e, s3)
            | Ok m2 => (Ok (Some l), put l m2 s3)
            end
        end
    end.
Proof.
  unfold xyz_to_mol, bind. rewrite MolFromXYZBlock_run. cbn zeta.
  destruct (rdkit_MolFromXYZBlock xyz) as [[m0|]|e]; try reflexivity.
  set (l := length (heap s)).
  set (s1 := push m0 _).
  assert (Hm0 : heap s1 !! l = Some m0)
    by apply (lookup_push m0 (record _ s)).
  rewrite (DetermineConnectivity_run _ _ _ Hm0). cbn zeta.
  destruct (rdkit_DetermineConnectivity m0) as [m1|e]; [|reflexivity].
  set (s2 := put l m1 _).
  assert (Hm1 : heap s2 !! l = Some m1)
    by apply (lookup_put l m1 m0 (record _ s1) Hm0).
  rewrite (DetermineBondOrders_run _ _ _ Hm1). cbn zeta.
  destruct (rdkit_DetermineBondOrders m1) as [m2|e]; reflexivity.
Qed.

(** One turn of the loop leaves the state as it was or updates the one
    object it works on. *)
Lemma correct_bond_state (l : loc) (positions : list Point3D) (k : nat)
    (s : State) :
  snd (correct_bond l positions k s) = s \/
  exists m, correct_bond l positions k s = (Ok tt, put l m s).
Proof.
  unfold correct_bond, bind, deref, lift, store.
  destruct (heap s !! l) as [m|]; [|left; reflexivity].
  destruct (getitem (GetBonds m) k) as [bond|]; [|left; reflexivity].
  destruct (getitem (GetAtoms m) _); [|left; reflexivity].
  destruct (getitem (GetAtoms m) _); [|left; reflexivity].
  destruct (getitem positions _); [|left; reflexivity].
  destruct (getitem positions _); [|left; reflexivity].
  destruct (infer_bond_type _ _ _); [|left; reflexivity].
  right. eexists. reflexivity.
Qed.

Lemma for_each_correct_bond_state (l : loc) (positions : list Point3D)
    (ks : list nat) :
  forall s : State,
    snd (for_each ks (correct_bond l positions) s) = s \/
    exists m, snd (for_each ks (correct_bond l positions) s) = put l m s.
Proof.
  induction ks as [|k ks IH]; intros s; [left; reflexivity|].
  cbn [for_each]. unfold bind.
  destruct (correct_bond_state l positions k s) as [Hs|[m Hm]].
  - destruct (correct_bond l positions k s) as [[[]|e] s1]; simpl in Hs;
      subst s1; [apply IH|left; reflexivity].
  - rewrite Hm. destruct (IH (put l m s)) as [-> | [m' ->]].
    + right. eauto.
    + right. exists m'. apply put_put.
Qed.

(** The whole of [unsaturated_xyz_to_mol]; when a bond cannot be
    classified, the loop stops there and the state is the one it left. *)
Lemma unsaturated_xyz_to_mol_run (xyz : string) (s : State) :
  unsaturated_xyz_to_mol xyz s =
    let l := length (heap s) in
    let s1 := record (Called fn_MolFromXYZBlock) s in
    match rdkit_MolFromXYZBlock xyz with
    | Raise e => (Raise e, s1)
    | Ok None =>
        (Raise ArgumentError, record (Called fn_DetermineConnectivity) s1)
    | Ok (Some m0) =>
        let s2 := record (Called fn_DetermineConnectivity) (push m0 s1) in
        match rdkit_DetermineConnectivity m0 with
        | Raise e => (Raise e, s2)
        | Ok m1 =>
            let s3 := put l m1 s2 in
            match GetConformers m1 !! 0%nat with
            | None => (Raise ValueError, s3)
            | Some conformer =>
                match retype (GetAtoms m1) conformer (GetBonds m1) with
                | Raise e =>
                    (Raise e,
                     snd (for_each (seq 0 (length (GetBonds m1)))
                            (correct_bond l conformer) s3))
                | Ok bonds' =>
                    let m2 := with_bonds m1 bonds' in
                    let s4 := record (Called fn_UpdatePropertyCache)
                                (put l m2 s3) in
                    match rdkit_UpdatePropertyCache m2 with
                    | Raise e => (Raise e, s4)
                    | Ok cache =>
                        let m3 := with_property_cache m2 cache in
                        let s5 := record (Called fn_AddHs) (put l m3 s4) in
                        match rdkit_AddHs true true m3 with
                        | Raise e => (Raise e, s5)
                        | Ok mh => (Ok (Some l), push mh s5)
                        end
                    end
                end
            end
        end
    end.
Proof.
  unfold unsaturated_xyz_to_mol, bind. rewrite MolFromXYZBlock_run.
  cbn zeta.
  destruct (rdkit_MolFromXYZBlock xyz) as [[m0|]|e]; try reflexivity.
  set (l := length (heap s)).
  set (s1 := push m0 _).
  assert (Hm0 : heap s1 !! l = Some m0)
    by apply (lookup_push m0 (record _ s)).
  rewrite (DetermineConnectivity_run _ _ _ Hm0). cbn zeta.
  destruct (rdkit_DetermineConnectivity m0) as [m1|e]; [|reflexivity].
  set (s2 := put l m1 _).
  assert (Hm1 : heap s2 !! l = Some m1)
    by apply (lookup_put l m1 m0 (record _ s1) Hm0).
  rewrite (GetConformer_run _ _ _ _ Hm1).
  destruct (GetConformers m1 !! 0%nat) as [conformer|]; [|reflexivity].
  cbn [self ret]. rewrite (GetBonds_run _ _ _ Hm1).
  unfold Chem.GetPositions.
  pose proof (for_each_correct_bond l conformer (GetBonds m1) [] m1 s2
                Hm1 eq_refl) as Hloop.
  cbn [length app] in Hloop.
  destruct (retype (GetAtoms m1) conformer (GetBonds m1)) as [bonds'|e].
  2:{ destruct (for_each _ _ s2) as [r sx]. simpl in Hloop. subst r.
      reflexivity. }
  rewrite Hloop.
  set (m2 := with_bonds m1 bonds').
  set (s3 := put l m2 s2).
  assert (Hm2 : heap s3 !! l = Some m2)
    by apply (lookup_put l m2 m1 s2 Hm1).
  rewrite (UpdatePropertyCache_run _ _ _ Hm2). cbn zeta.
  destruct (rdkit_UpdatePropertyCache m2) as [cache|e]; [|reflexivity].
  set (m3 := with_property_cache m2 cache).
  set (s4 := put l m3 _).
  assert (Hm3 : heap s4 !! l = Some m3)
    by apply (lookup_put l m3 m2 (record _ s3) Hm2).
  rewrite (AddHs_run _ _ _ _ _ Hm3). cbn zeta.
  destruct (rdkit_AddHs true true m3) as [mh|e]; reflexivity.
Qed.

End Outcomes.

(** ** Errors and effects *)

(** The store and trace of a state written out. *)
Ltac lay_out :=
  cbn zeta; unfold put, push, record; simpl;
  rewrite ?list_insert_insert_eq, ?insert_last, ?insert_last_but_one,
    <- ?app_assoc; simpl.

(** X6: [xyz_to_mol] returns exactly when the parser reads the text and
    both determination steps go through.  It then returns a reference to
    one new object, which holds what [DetermineBondOrders] made of what
    [DetermineConnectivity] made of the parsed molecule; the objects that
    were there before are as they were, and the three calls were made in
    this order. *)
Theorem xyz_to_mol_pipeline {tk : Toolkit}
    (xyz : string) (s s' : State) (mol : option loc) :
  xyz_to_mol xyz s = (Ok mol, s') <->
  exists m0 m1 m2,
    rdkit_MolFromXYZBlock xyz = Ok (Some m0) /\
    rdkit_DetermineConnectivity m0 = Ok m1 /\
    rdkit_DetermineBondOrders m1 = Ok m2 /\
    mol = Some (length (heap s)) /\
    s' = {| heap := heap s ++ [m2];
            trace := trace s ++ [Called fn_MolFromXYZBlock;
                                 Called fn_DetermineConnectivity;
                                 Called fn_DetermineBondOrders];
            entropy := entropy s |}.
Proof. apply xyz_to_mol_Ok. Qed.

(** X7: on text the parser answers [None] to, [xyz_to_mol],
    [xyz_to_smiles] and [unsaturated_xyz_to_mol] all raise the
    [ArgumentError] of [DetermineConnectivity]; no object has been made and
    no further call. *)
Theorem unparseable_xyz_raises_ArgumentError
    {tables : Const} {tk : Toolkit} (xyz : string) (s : State) :
  rdkit_MolFromXYZBlock xyz = Ok None ->
  let s' := {| heap := heap s;
               trace := trace s ++ [Called fn_MolFromXYZBlock;
                                    Called fn_DetermineConnectivity];
               entropy := entropy s |} in
  xyz_to_mol xyz s = (Raise ArgumentError, s') /\
  xyz_to_smiles xyz s = (Raise ArgumentError, s') /\
  unsaturated_xyz_to_mol xyz s = (Raise ArgumentError, s').
Proof.
  intros Hparse. cbn zeta.
  assert (Hmol : xyz_to_mol xyz s
                 = (Raise ArgumentError,
                    {| heap := heap s;
                       trace := trace s ++ [Called fn_MolFromXYZBlock;
                                            Called fn_DetermineConnectivity];
                       entropy := entropy s |})).
  { rewrite xyz_to_mol_run, Hparse. lay_out. reflexivity. }
  split; [exact Hmol|]. split.
  - unfold xyz_to_smiles, bind. rewrite Hmol. reflexivity.
  - rewrite unsaturated_xyz_to_mol_run, Hparse. lay_out. reflexivity.
Qed.

Lemma unparseable_xyz_raises_ArgumentError_witness :
  let s' := {| heap := []; trace := [Called fn_MolFromXYZBlock;
                                     Called fn_DetermineConnectivity];
               entropy := 0 |} in
  @xyz_to_mol Sample.toolkit "no geometry" Sample.empty_state
    = (Raise ArgumentError, s') /\
  @xyz_to_smiles Sample.toolkit "no geometry" Sample.empty_state
    = (Raise ArgumentError, s') /\
  @unsaturated_xyz_to_mol Sample.tables Sample.toolkit "no geometry"
    Sample.empty_state = (Raise ArgumentError, s').
Proof.
  exact (@unparseable_xyz_raises_ArgumentError Sample.tables Sample.toolkit
           "no geometry" Sample.empty_state eq_refl).
Defined.

(** X8: on a string the SMILES parser answers [None] to, [smiles_to_xyz]
    raises the [ArgumentError] of [AddHs]: nothing is embedded, no object
    has been made, and the lock has been released. *)
Theorem unparseable_smiles_raises_ArgumentError {tk : Toolkit}
    (smiles : string) (s : State) :
  rdkit_MolFromSmiles smiles = Ok None ->
  smiles_to_xyz smiles s
  = (Raise ArgumentError,
     {| heap := heap s;
        trace := trace s ++ [LockAcquire; Called fn_MolFromSmiles;
                             Called fn_AddHs; LockRelease];
        entropy := entropy s |}).
Proof.
  intros Hparse. rewrite smiles_to_xyz_run, Hparse. lay_out. reflexivity.
Qed.

Lemma unparseable_smiles_raises_ArgumentError_witness :
  @smiles_to_xyz Sample.toolkit "C(" Sample.busy_state
  = (Raise ArgumentError,
     {| heap := heap Sample.busy_state;
        trace := trace Sample.busy_state
                 ++ [LockAcquire; Called fn_MolFromSmiles;
                     Called fn_AddHs; LockRelease];
        entropy := entropy Sample.busy_state |}).
Proof.
  exact (@unparseable_smiles_raises_ArgumentError Sample.toolkit "C("
           Sample.busy_state eq_refl).
Defined.

Section Effects.
Context {tables : Const} {tk : Toolkit}.

(** The whole of [xyz_to_smiles]. *)
Lemma xyz_to_smiles_run (xyz : string) (s : State) :
  xyz_to_smiles xyz s =
    let l := length (heap s) in
    let s1 := record (Called fn_MolFromXYZBlock) s in
    match rdkit_MolFromXYZBlock xyz with
    | Raise e => (Raise e, s1)
    | Ok None =>
        (Raise ArgumentError, record (Called fn_DetermineConnectivity) s1)
    | Ok (Some m0) =>
        let s2 := record (Called fn_DetermineConnectivity) (push m0 s1) in
        match rdkit_DetermineConnectivity m0 with
        | Raise e => (Raise e, s2)
        | Ok m1 =>
            let s3 := record (Called fn_DetermineBondOrders) (put l m1 s2) in
            match rdkit_DetermineBondOrders m1 with
            | Raise e => (Raise e, s3)
            | Ok m2 =>
                (rdkit_MolToSmiles m2,
                 record (Called fn_MolToSmiles) (put l m2 s3))
            end
        end
    end.
Proof.
  unfold xyz_to_smiles, bind. rewrite xyz_to_mol_run. cbn zeta.
  destruct (rdkit_MolFromXYZBlock xyz) as [[m0|]|e]; try reflexivity.
  destruct (rdkit_DetermineConnectivity m0) as [m1|e]; [|reflexivity].
  destruct (rdkit_DetermineBondOrders m1) as [m2|e]; [|reflexivity].
  apply MolToSmiles_run. lay_out. apply list_lookup_middle. reflexivity.
Qed.

(** A leaf of a case analysis: the store has only grown, the random source
    is as it was, and the calls made are the first [n] of the list. *)
Ltac leaf n :=
  lay_out;
  split; [first [reflexivity | apply prefix_app_r; reflexivity]|];
  split; [reflexivity|];
  exists n; split; [reflexivity | try reflexivity; intros []].

Lemma xyz_to_smiles_effects (xyz : string) (s : State) :
  let out := xyz_to_smiles xyz s in
  heap s `prefix_of` heap (snd out) /\
  entropy (snd out) = entropy s /\
  exists n : nat,
    trace (snd out)
    = trace s ++ (Called <$> take n [fn_MolFromXYZBlock;
                                     fn_DetermineConnectivity;
                                     fn_DetermineBondOrders;
                                     fn_MolToSmiles]) /\
    (is_Ok (fst out) -> n = 4%nat).
Proof.
  cbn zeta. rewrite xyz_to_smiles_run. cbn zeta.
  destruct (rdkit_MolFromXYZBlock xyz) as [[m0|]|e];
    [|leaf 2%nat|leaf 1%nat].
  destruct (rdkit_DetermineConnectivity m0) as [m1|e]; [|leaf 2%nat].
  destruct (rdkit_DetermineBondOrders m1) as [m2|e]; [|leaf 3%nat].
  leaf 4%nat.
Qed.

Lemma xyz_to_mol_effects (xyz : string) (s : State) :
  let out := xyz_to_mol xyz s in
  heap s `prefix_of` heap (snd out) /\
  entropy (snd out) = entropy s /\
  exists n : nat,
    trace (snd out)
    = trace s ++ (Called <$> take n [fn_MolFromXYZBlock;
                                     fn_DetermineConnectivity;
                                     fn_DetermineBondOrders]) /\
    (is_Ok (fst out) -> n = 3%nat).
Proof.
  cbn zeta. rewrite xyz_to_mol_run. cbn zeta.
  destruct (rdkit_MolFromXYZBlock xyz) as [[m0|]|e];
    [|leaf 2%nat|leaf 1%nat].
  destruct (rdkit_DetermineConnectivity m0) as [m1|e]; [|leaf 2%nat].
  destruct (rdkit_DetermineBondOrders m1) as [m2|e]; [|leaf 3%nat].
  leaf 3%nat.
Qed.

Lemma unsaturated_xyz_to_mol_effects (xyz : string) (s : State) :
  let out := unsaturated_xyz_to_mol xyz s in
  heap s `prefix_of` heap (snd out) /\
  entropy (snd out) = entropy s /\
  exists n : nat,
    trace (snd out)
    = trace s ++ (Called <$> take n [fn_MolFromXYZBlock;
                                     fn_DetermineConnectivity;
                                     fn_UpdatePropertyCache;
                                     fn_AddHs]) /\
    (is_Ok (fst out) -> n = 4%nat).
Proof.
  cbn zeta. rewrite unsaturated_xyz_to_mol_run. cbn zeta.
  destruct (rdkit_MolFromXYZBlock xyz) as [[m0|]|e];
    [|leaf 2%nat|leaf 1%nat].
  destruct (rdkit_DetermineConnectivity m0) as [m1|e]; [|leaf 2%nat].
  destruct (GetConformers m1 !! 0%nat) as [conformer|]; [|leaf 2%nat].
  destruct (retype (GetAtoms m1) conformer (GetBonds m1)) as [bonds'|e].
  2:{ cbn [snd fst].
      destruct (for_each_correct_bond_state (length (heap s)) conformer
                  (seq 0 (length (GetBonds m1)))
                  (put (length (heap s)) m1
                     (record (Called fn_DetermineConnectivity)
                        (push m0 (record (Called fn_MolFromXYZBlock) s)))))
        as [-> | [m' ->]]; leaf 2%nat. }
  destruct (rdkit_UpdatePropertyCache (with_bonds m1 bonds')) as [cache|e];
    [|leaf 3%nat].
  destruct (rdkit_AddHs true true _) as [mh|e]; [|leaf 4%nat].
  leaf 4%nat.
Qed.

Lemma smiles_to_xyz_effects (smiles : string) (s : State) :
  let out := smiles_to_xyz smiles s in
  heap s `prefix_of` heap (snd out) /\
  entropy (snd out) = entropy s.
Proof.
  cbn zeta. rewrite smiles_to_xyz_run. cbn zeta.
  assert (Hl : forall (h : list Mol) (x y z : Mol),
             <[S (length h) := x]> (h ++ [y; z]) = h ++ [y; x]).
  { intros h x y z. rewrite insert_app_r_alt by lia.
    replace (S (length h) - length h)%nat with 1%nat by lia. reflexivity. }
  destruct (rdkit_MolFromSmiles smiles) as [[m0|]|e];
    [|lay_out; split; reflexivity ..].
  destruct (rdkit_AddHs false false m0) as [m1|e];
    [|lay_out; split; [apply prefix_app_r|]; reflexivity].
  destruct (rdkit_EmbedMolecule 1 m1) as [r2|e];
    [|lay_out; split; [apply prefix_app_r|]; reflexivity].
  destruct (rdkit_MMFFOptimizeMolecule (fst r2)) as [r3|e];
    lay_out; rewrite ?Hl; split; first [apply prefix_app_r|idtac];
    reflexivity.
Qed.

End Effects.

(** X9: whatever the outcome, none of the four functions changes or
    removes an object that was there before the call, and none touches the
    unseeded random source: they only add objects. *)
Theorem existing_objects_untouched {tables : Const} {tk : Toolkit}
    (text : string) (s : State) (l : loc) (m : Mol) :
  heap s !! l = Some m ->
  (heap (snd (xyz_to_mol text s)) !! l = Some m /\
   entropy (snd (xyz_to_mol text s)) = entropy s) /\
  (heap (snd (xyz_to_smiles text s)) !! l = Some m /\
   entropy (snd (xyz_to_smiles text s)) = entropy s) /\
  (heap (snd (smiles_to_xyz text s)) !! l = Some m /\
   entropy (snd (smiles_to_xyz text s)) = entropy s) /\
  (heap (snd (unsaturated_xyz_to_mol text s)) !! l = Some m /\
   entropy (snd (unsaturated_xyz_to_mol text s)) = entropy s).
Proof.
  intros Hl.
  destruct (xyz_to_mol_effects text s) as (H1 & E1 & _).
  destruct (xyz_to_smiles_effects text s) as (H2 & E2 & _).
  destruct (smiles_to_xyz_effects text s) as (H3 & E3).
  destruct (unsaturated_xyz_to_mol_effects text s) as (H4 & E4 & _).
  repeat split; try assumption;
    eapply prefix_lookup_Some; eassumption.
Qed.

Lemma existing_objects_untouched_witness :
  let text := Sample.propynal_xyz in
  let s := Sample.busy_state in
  let m := Sample.propynal_parsed in
  (heap (snd (@xyz_to_mol Sample.toolkit text s)) !! 1%nat = Some m /\
   entropy (snd (@xyz_to_mol Sample.toolkit text s)) = entropy s) /\
  (heap (snd (@xyz_to_smiles Sample.toolkit text s)) !! 1%nat = Some m /\
   entropy (snd (@xyz_to_smiles Sample.toolkit text s)) = entropy s) /\
  (heap (snd (@smiles_to_xyz Sample.toolkit text s)) !! 1%nat = Some m /\
   entropy (snd (@smiles_to_xyz Sample.toolkit text s)) = entropy s) /\
  (heap (snd (@unsaturated_xyz_to_mol Sample.tables Sample.toolkit text s))
     !! 1%nat = Some m /\
   entropy (snd (@unsaturated_xyz_to_mol Sample.tables Sample.toolkit text s))
   = entropy s).
Proof.
  exact (@existing_objects_untouched Sample.tables Sample.toolkit
           Sample.propynal_xyz Sample.busy_state 1%nat
           Sample.propynal_parsed eq_refl).
Defined.


(** X11: [xyz_to_smiles] returns a string exactly when the parser reads
    the text and connectivity, bond orders and the SMILES writer go
    through, each on the result of the one before; the string is the
    writer's.  Its calls are always the first [n] of these four, and it
    never takes the lock. *)
Theorem xyz_to_smiles_end_to_end {tk : Toolkit} (xyz : string) (s : State) :
  (forall smiles : string,
     fst (xyz_to_smiles xyz s) = Ok smiles <->
     exists m0 m1 m2,
       rdkit_MolFromXYZBlock xyz = Ok (Some m0) /\
       rdkit_DetermineConnectivity m0 = Ok m1 /\
       rdkit_DetermineBondOrders m1 = Ok m2 /\
       rdkit_MolToSmiles m2 = Ok smiles) /\
  exists n : nat,
    events_of (xyz_to_smiles xyz) s
    = Called <$> take n [fn_MolFromXYZBlock; fn_DetermineConnectivity;
                         fn_DetermineBondOrders; fn_MolToSmiles].
Proof.
  split.
  - intros smiles. rewrite xyz_to_smiles_run. cbn zeta.
    destruct (rdkit_MolFromXYZBlock xyz) as [[m0|]|e] eqn:E0;
      [| split; [discriminate | intros (?&?&?&?&_); clash] ..].
    destruct (rdkit_DetermineConnectivity m0) as [m1|e] eqn:E1;
      [| split; [discriminate | intros (?&?&?&?&?&_); clash]].
    destruct (rdkit_DetermineBondOrders m1) as [m2|e] eqn:E2;
      [| split; [discriminate | intros (?&?&?&?&?&?&_); clash]].
    simpl. split.
    + intros Hs. exists m0, m1, m2. auto.
    + intros (m0' & m1' & m2' & [= <-] & E1' & E2' & Hs).
      rewrite E1 in E1'. injection E1' as <-.
      rewrite E2 in E2'. injection E2' as <-. exact Hs.
  - unfold events_of.
    destruct (xyz_to_smiles_effects xyz s) as (_ & _ & n & -> & _).
    rewrite drop_app_length. exists n. reflexivity.
Qed.

(** ** What the bond correction keeps, and what it reads *)

Lemma retype_endpoints {tables : Const} {tk : Toolkit} (atoms : list Atom)
    (positions : list Point3D) (bonds bonds' : list Bond) :
  retype atoms positions bonds = Ok bonds' ->
  (fun b => (GetBeginAtomIdx b, GetEndAtomIdx b)) <$> bonds'
  = (fun b => (GetBeginAtomIdx b, GetEndAtomIdx b)) <$> bonds.
Proof.
  revert bonds'. induction bonds as [|b rest IH]; intros bonds';
    cbn [retype].
  - intros [= <-]. reflexivity.
  - intros Hr. apply res_bind_Ok in Hr as (bond_type & _ & Hr).
    apply res_bind_Ok in Hr as (rest' & Hrest & [= <-]).
    rewrite !fmap_cons, (IH rest' Hrest). reflexivity.
Qed.

(** X12: the bond correction changes bond types and nothing else: the
    molecule returned has the atoms, the conformers and, bond for bond,
    the end points that [DetermineConnectivity] found. *)
Theorem bond_correction_keeps_connectivity {tables : Const} {tk : Toolkit}
    (xyz : string) (s s' : State) (mol : option loc) :
  unsaturated_xyz_to_mol xyz s = (Ok mol, s') ->
  exists l m0 m1 m,
    mol = Some l /\
    heap s' !! l = Some m /\
    rdkit_MolFromXYZBlock xyz = Ok (Some m0) /\
    rdkit_DetermineConnectivity m0 = Ok m1 /\
    GetAtoms m = GetAtoms m1 /\
    GetConformers m = GetConformers m1 /\
    (fun b => (GetBeginAtomIdx b, GetEndAtomIdx b)) <$> GetBonds m
    = (fun b => (GetBeginAtomIdx b, GetEndAtomIdx b)) <$> GetBonds m1.
Proof.
  intros Hrun. apply unsaturated_xyz_to_mol_returned in Hrun
    as (m0 & m1 & conformer & m & mh
        & E0 & E1 & -> & Hm & _ & _ & Hatoms & Hconf & _ & Hretype).
  exists (length (heap s)), m0, m1, m.
  repeat (split; [first [assumption | reflexivity]|]).
  exact (retype_endpoints _ _ _ _ Hretype).
Qed.

Lemma bond_correction_keeps_connectivity_witness :
  let out := @unsaturated_xyz_to_mol Sample.tables Sample.toolkit
               Sample.propynal_xyz Sample.empty_state in
  exists l m0 m1 m,
    Some 0%nat = Some l /\
    heap (snd out) !! l = Some m /\
    @rdkit_MolFromXYZBlock Sample.toolkit Sample.propynal_xyz
      = Ok (Some m0) /\
    @rdkit_DetermineConnectivity Sample.toolkit m0 = Ok m1 /\
    GetAtoms m = GetAtoms m1 /\
    GetConformers m = GetConformers m1 /\
    (fun b => (GetBeginAtomIdx b, GetEndAtomIdx b)) <$> GetBonds m
    = (fun b => (GetBeginAtomIdx b, GetEndAtomIdx b)) <$> GetBonds m1.
Proof.
  apply (@bond_correction_keeps_connectivity Sample.tables Sample.toolkit
           Sample.propynal_xyz Sample.empty_state).
  vm_compute. reflexivity.
Defined.

Lemma for_each_ext {A} (f g : A -> M unit) (xs : list A) :
  (forall x s, f x s = g x s) ->
  forall s, for_each xs f s = for_each xs g s.
Proof.
  intros Hfg. induction xs as [|x xs IH]; intros s; [reflexivity|].
  cbn [for_each]. unfold bind. rewrite Hfg.
  destruct (g x s) as [[[]|e] s1]; [apply IH|reflexivity].
Qed.

Section TwoTables.
Context (t1 t2 : Const) {tk : Toolkit}.
Hypothesis same_BONDS_2 : @BONDS_2 t1 = @BONDS_2 t2.
Hypothesis same_BONDS_3 : @BONDS_3 t1 = @BONDS_3 t2.
Hypothesis same_margin_1 :
  @MARGINS_EDM t1 !! 1%nat = @MARGINS_EDM t2 !! 1%nat.
Hypothesis same_margin_2 :
  @MARGINS_EDM t1 !! 2%nat = @MARGINS_EDM t2 !! 2%nat.

Lemma infer_bond_type_same (type_1 type_2 : string) (distance : float) :
  @infer_bond_type t1 type_1 type_2 distance
  = @infer_bond_type t2 type_1 type_2 distance.
Proof.
  unfold infer_bond_type, getitem.
  rewrite same_BONDS_2, same_BONDS_3, same_margin_1, same_margin_2.
  reflexivity.
Qed.

Lemma retype_same (atoms : list Atom) (positions : list Point3D)
    (bonds : list Bond) :
  @retype t1 tk atoms positions bonds
  = @retype t2 tk atoms positions bonds.
Proof.
  induction bonds as [|b rest IH]; [reflexivity|].
  cbn [retype]. rewrite IH. unfold classify_bond, res_bind.
  destruct (getitem atoms _); [|reflexivity].
  destruct (getitem atoms _); [|reflexivity].
  destruct (getitem positions _); [|reflexivity].
  destruct (getitem positions _); [|reflexivity].
  rewrite infer_bond_type_same. reflexivity.
Qed.

Lemma correct_bond_same (l : loc) (positions : list Point3D) (k : nat)
    (s : State) :
  @correct_bond t1 tk l positions k s
  = @correct_bond t2 tk l positions k s.
Proof.
  unfold correct_bond, bind, deref, lift.
  destruct (heap s !! l) as [m|]; [|reflexivity].
  destruct (getitem (GetBonds m) k); [|reflexivity].
  destruct (getitem (GetAtoms m) _); [|reflexivity].
  destruct (getitem (GetAtoms m) _); [|reflexivity].
  destruct (getitem positions _); [|reflexivity].
  destruct (getitem positions _); [|reflexivity].
  rewrite infer_bond_type_same. reflexivity.
Qed.

Lemma unsaturated_xyz_to_mol_same (xyz : string) (s : State) :
  @unsaturated_xyz_to_mol t1 tk xyz s = @unsaturated_xyz_to_mol t2 tk xyz s.
Proof.
  rewrite !unsaturated_xyz_to_mol_run. cbn zeta.
  destruct (rdkit_MolFromXYZBlock xyz) as [[m0|]|e]; try reflexivity.
  destruct (rdkit_DetermineConnectivity m0) as [m1|e]; [|reflexivity].
  destruct (GetConformers m1 !! 0%nat) as [conformer|]; [|reflexivity].
  rewrite retype_same.
  rewrite (for_each_ext _ _ _ (correct_bond_same _ conformer)).
  reflexivity.
Qed.

End TwoTables.

(** X13: of the constants, [unsaturated_xyz_to_mol] reads the two tables
    and [margins[1]] and [margins[2]]: tables that agree there give the same
    result and the same state, whatever [margins[0]] and any margin past
    the third are. *)
Theorem only_double_and_triple_margins_are_read {tk : Toolkit}
    (t1 t2 : Const) (xyz : string) (s : State) :
  @BONDS_2 t1 = @BONDS_2 t2 ->
  @BONDS_3 t1 = @BONDS_3 t2 ->
  @MARGINS_EDM t1 !! 1%nat = @MARGINS_EDM t2 !! 1%nat ->
  @MARGINS_EDM t1 !! 2%nat = @MARGINS_EDM t2 !! 2%nat ->
  @unsaturated_xyz_to_mol t1 tk xyz s = @unsaturated_xyz_to_mol t2 tk xyz s.
Proof. intros. apply unsaturated_xyz_to_mol_same; assumption. Qed.

Lemma only_double_and_triple_margins_are_read_witness :
  @MARGINS_EDM Sample.tables !! 0%nat
    <> @MARGINS_EDM Edge.other_margins !! 0%nat /\
  @unsaturated_xyz_to_mol Sample.tables Sample.toolkit
    Sample.propynal_xyz Sample.empty_state
  = @unsaturated_xyz_to_mol Edge.other_margins Sample.toolkit
      Sample.propynal_xyz Sample.empty_state.
Proof.
  split; [discriminate|].
  exact (@only_double_and_triple_margins_are_read Sample.toolkit
           Sample.tables Edge.other_margins Sample.propynal_xyz
           Sample.empty_state eq_refl eq_refl eq_refl eq_refl).
Defined.

(** X14: for a molecule in which [DetermineConnectivity] finds no bond,
    the constants are not read at all: any two sets of tables and margins,
    empty ones included, give the same result and the same state. *)
Theorem without_bonds_no_constant_is_read {tk : Toolkit}
    (t1 t2 : Const) (xyz : string) (s : State) (m0 m1 : Mol) :
  rdkit_MolFromXYZBlock xyz = Ok (Some m0) ->
  rdkit_DetermineConnectivity m0 = Ok m1 ->
  GetBonds m1 = [] ->
  @unsaturated_xyz_to_mol t1 tk xyz s = @unsaturated_xyz_to_mol t2 tk xyz s.
Proof.
  intros E0 E1 Hbonds. rewrite !unsaturated_xyz_to_mol_run. cbn zeta.
  rewrite E0, E1, Hbonds. reflexivity.
Qed.

Lemma without_bonds_no_constant_is_read_witness :
  let nothing := {| BONDS_2 := ∅; BONDS_3 := ∅; MARGINS_EDM := [] |} in
  @unsaturated_xyz_to_mol Sample.tables Edge.toolkit Edge.carbon_xyz
    Sample.empty_state
  = @unsaturated_xyz_to_mol nothing Edge.toolkit Edge.carbon_xyz
      Sample.empty_state.
Proof.
  exact (@without_bonds_no_constant_is_read Edge.toolkit Sample.tables
           {| BONDS_2 := ∅; BONDS_3 := ∅; MARGINS_EDM := [] |}
           Edge.carbon_xyz Sample.empty_state
           Edge.carbon_parsed Edge.carbon_parsed eq_refl eq_refl eq_refl).
Defined.

(** X15: [unsaturated_xyz_to_mol] raises [ValueError] when the molecule
    has no conformer 0: no bond has been retyped, the object holds what
    [DetermineConnectivity] left, and neither [UpdatePropertyCache] nor
    [AddHs] has been called. *)
Theorem missing_conformer_raises_ValueError {tables : Const} {tk : Toolkit}
    (xyz : string) (s : State) (m0 m1 : Mol) :
  rdkit_MolFromXYZBlock xyz = Ok (Some m0) ->
  rdkit_DetermineConnectivity m0 = Ok m1 ->
  GetConformers m1 !! 0%nat = None ->
  unsaturated_xyz_to_mol xyz s
  = (Raise ValueError,
     {| heap := heap s ++ [m1];
        trace := trace s ++ [Called fn_MolFromXYZBlock;
                             Called fn_DetermineConnectivity];
        entropy := entropy s |}).
Proof.
  intros E0 E1 Hconf. rewrite unsaturated_xyz_to_mol_run. cbn zeta.
  rewrite E0, E1, Hconf. lay_out. reflexivity.
Qed.

Lemma missing_conformer_raises_ValueError_witness :
  @unsaturated_xyz_to_mol Sample.tables Edge.toolkit Sample.propynal_xyz
    Sample.empty_state
  = (Raise ValueError,
     {| heap := [Edge.propynal_without_conformer];
        trace := [Called fn_MolFromXYZBlock;
                  Called fn_DetermineConnectivity];
        entropy := 0 |}).
Proof.
  exact (@missing_conformer_raises_ValueError Sample.tables Edge.toolkit
           Sample.propynal_xyz Sample.empty_state
           Edge.propynal_without_conformer Edge.propynal_without_conformer
           eq_refl eq_refl eq_refl).
Defined.

(** X16: [smiles_to_xyz] does not look at what [EmbedMolecule] and
    [MMFFOptimizeMolecule] return: whatever the conformer id, -1 for a
    failed embedding included, the molecule is handed on to the optimizer,
    and whatever the optimizer's flag, its molecule is written out. *)
Theorem embedding_failure_is_not_checked {tk : Toolkit}
    (smiles : string) (s : State) (m0 m1 m2 : Mol) (conformer_id : Z) :
  rdkit_MolFromSmiles smiles = Ok (Some m0) ->
  rdkit_AddHs false false m0 = Ok m1 ->
  rdkit_EmbedMolecule 1 m1 = Ok (m2, conformer_id) ->
  fst (smiles_to_xyz smiles s)
  = res_bind (rdkit_MMFFOptimizeMolecule m2)
      (fun r => rdkit_MolToXYZBlock (fst r)).
Proof.
  intros E0 E1 E2. rewrite smiles_to_xyz_run. cbn zeta.
  rewrite E0, E1, E2. simpl.
  destruct (rdkit_MMFFOptimizeMolecule m2); reflexivity.
Qed.

Lemma embedding_failure_is_not_checked_witness :
  fst (@smiles_to_xyz Edge.toolkit "C#N" Sample.empty_state)
  = res_bind (@rdkit_MMFFOptimizeMolecule Edge.toolkit
                (Sample.add_hs false Sample.hydrogen_cyanide))
      (fun r => @rdkit_MolToXYZBlock Edge.toolkit (fst r)).
Proof.
  exact (@embedding_failure_is_not_checked Edge.toolkit "C#N"
           Sample.empty_state Sample.hydrogen_cyanide
           (Sample.add_hs false Sample.hydrogen_cyanide)
           (Sample.add_hs false Sample.hydrogen_cyanide) (-1)
           eq_refl eq_refl eq_refl).
Defined.

(** On that toolkit the failed embedding shows as the optimizer's
    [ValueError]. *)
Example smiles_to_xyz_after_failed_embedding :
  fst (@smiles_to_xyz Edge.toolkit "C#N" Sample.empty_state)
  = Raise ValueError.
Proof. vm_compute. reflexivity. Qed.

(** ** The lock cannot block for ever *)

Lemma advance_changes (t : nat) (cfg : Threads.Config) (e : Event)
    (rest : list Event) :
  Threads.pending cfg !! t = Some (e :: rest) ->
  (e = LockAcquire -> Threads._generate_lock cfg = false) ->
  Threads.advance t cfg <> cfg.
Proof.
  intros Ht Hfree Heq.
  assert (Hstuck : Threads.pending (Threads.advance t cfg) !! t
                   = Some (e :: rest)) by (rewrite Heq; exact Ht).
  unfold Threads.advance in Hstuck. rewrite Ht in Hstuck.
  assert (Hlen : (t < length (Threads.pending cfg))%nat)
    by (eapply lookup_lt_Some; exact Ht).
  destruct e as [| |f].
  - rewrite (Hfree eq_refl) in Hstuck. simpl in Hstuck.
    rewrite list_lookup_insert_eq in Hstuck by exact Hlen.
    injection Hstuck as Hrest.
    apply (f_equal length) in Hrest. simpl in Hrest. lia.
  - simpl in Hstuck.
    rewrite list_lookup_insert_eq in Hstuck by exact Hlen.
    injection Hstuck as Hrest.
    apply (f_equal length) in Hrest. simpl in Hrest. lia.
  - simpl in Hstuck.
    rewrite list_lookup_insert_eq in Hstuck by exact Hlen.
    injection Hstuck as Hrest.
    apply (f_equal length) in Hrest. simpl in Hrest. lia.
Qed.

Lemma invariant_progress (cfg : Threads.Config) :
  Threads.invariant cfg ->
  (Forall (fun script => script = []) (Threads.pending cfg) /\
   Threads._generate_lock cfg = false) \/
  exists t, Threads.advance t cfg <> cfg.
Proof.
  intros [Hwf Hcount]. unfold Threads.count in Hcount.
  destruct (Threads._generate_lock cfg) eqn:Hlock.
  - (* the holder can go on *)
    right.
    destruct (filter (fun sc => Threads.inside sc = true)
                (Threads.pending cfg)) as [|script others] eqn:Hf;
      [discriminate|].
    assert (Hin : script ∈ filter (fun sc => Threads.inside sc = true)
                    (Threads.pending cfg))
      by (rewrite Hf; apply list_elem_of_here).
    apply list_elem_of_filter in Hin as [Hinside Hin].
    apply list_elem_of_lookup in Hin as [t Ht].
    exists t. destruct script as [|e rest]; [discriminate|].
    apply (advance_changes t cfg e rest Ht).
    intros ->. discriminate.
  - destruct (decide (Forall (fun script => script = [])
                        (Threads.pending cfg))) as [Hdone|Hleft];
      [left; split; [exact Hdone|reflexivity]|].
    right. apply not_Forall_Exists in Hleft; [|intros sc; apply _].
    apply Exists_exists in Hleft as (script & Hin & Hne).
    apply list_elem_of_lookup in Hin as [t Ht].
    exists t.
    destruct script as [|e rest]; [exfalso; apply Hne; reflexivity|].
    apply (advance_changes t cfg e rest Ht). intros _. exact Hlock.
Qed.

(** X17: invocations of [smiles_to_xyz] cannot block one another for
    ever.  After any schedule, either every invocation has finished and
    the lock is free, or some invocation can take its next step: the one
    inside the block, if there is one, and else any that has not finished. *)
Theorem generate_lock_never_deadlocks {tk : Toolkit}
    (invocations : list (string * State)) (schedule : list nat) :
  let scripts :=
    (fun inv => events_of (smiles_to_xyz (fst inv)) (snd inv))
      <$> invocations in
  let cfg := Threads.run schedule (Threads.initial scripts) in
  (Forall (fun script => script = []) (Threads.pending cfg) /\
   Threads._generate_lock cfg = false) \/
  exists t, Threads.advance t cfg <> cfg.
Proof.
  cbn zeta. apply invariant_progress.
  apply ThreadsFacts.invariant_run, ThreadsFacts.invariant_initial.
  apply Forall_fmap, Forall_forall. intros [smiles s] _. simpl.
  destruct (smiles_to_xyz_events smiles s) as (n & Hev & _).
  exists ((Called <$> take n smiles_to_xyz_calls) ++ [LockRelease]).
  split; [exact Hev|]. exists (take n smiles_to_xyz_calls). reflexivity.
Qed.
